(** * Request authentication pipeline: a shallow embedding

    The development follows the TypeScript sources of the package:
    - [errors.ts]      the error taxonomy ([AuthError], [isAuthError]);
    - [context.ts]     the identity record ([UserContext]);
    - [token.ts]       credential extraction and delegated verification;
    - [plugin.ts]      the per-request gate and the error-to-response mapper;
    - [permissions.ts] the composable guards;
    - [testing/index.ts] the mock users and the mock pre-handler.

    JavaScript strings are modelled by [string]; every literal the code
    matches on is ASCII, so prefix tests and [slice] agree with the
    UTF-16 code unit view of the runtime.  Objects used as dictionaries are
    [gmap string _].  Exceptions and the effects of a handler (the attached
    identity, the calls it makes to its collaborators) are threaded
    explicitly through a small state-and-error monad. *)

From Stdlib Require Import String Ascii List ZArith Bool Lia.
From stdpp Require Import base strings gmap.

Local Open Scope string_scope.
Local Open Scope list_scope.

(** ** String primitives of the runtime *)

Module JsString.

(** [s.startsWith(p)] *)
Fixpoint startsWith (s p : string) {struct p} : bool :=
  match p, s with
  | EmptyString, _ => true
  | String _ _, EmptyString => false
  | String c p', String d s' => Ascii.eqb c d && startsWith s' p'
  end.

(** [s.slice(n)] for a non-negative start index [n]. *)
Fixpoint slice (s : string) (n : nat) : string :=
  match n, s with
  | O, _ => s
  | S _, EmptyString => EmptyString
  | S n', String _ s' => slice s' n'
  end.

(** [s.includes(sub)]: [sub] occurs at some position of [s]. *)
Fixpoint includes (s sub : string) : bool :=
  startsWith s sub ||
  match s with
  | EmptyString => false
  | String _ s' => includes s' sub
  end.

(** [l.join(sep)] *)
Fixpoint join (sep : string) (l : list string) : string :=
  match l with
  | [] => ""
  | [x] => x
  | x :: rest => x +:+ sep +:+ join sep rest
  end.

(** A string is truthy unless it is empty. *)
Definition truthy (s : string) : bool :=
  match s with
  | EmptyString => false
  | String _ _ => true
  end.

(** [s.replace(pat, rep)] for a string pattern [pat] and a replacement
    without [$] patterns: the first occurrence of [pat] is replaced. *)
Fixpoint replace (s pat rep : string) : string :=
  if startsWith s pat then rep +:+ slice s (String.length pat)
  else
    match s with
    | EmptyString => EmptyString
    | String c s' => String c (replace s' pat rep)
    end.

End JsString.

(** ** Runtime values

    Claim sets and metadata bags hold values of arbitrary JSON shape. *)

#[warnings="-register-all"]
Inductive JsValue : Type :=
  | JNull
  | JBool (b : bool)
  | JNum (n : Z)
  | JStr (s : string)
  | JArr (items : list JsValue)
  | JObj (fields : gmap string JsValue).

(** The unchecked cast [x as Record<string, unknown>]: an object is its
    field map; a value of another shape carries none of the keys the
    package looks up, which is all the record is ever asked for. *)
Definition asRecord (x : JsValue) : gmap string JsValue :=
  match x with
  | JObj fields => fields
  | _ => ∅
  end.

(** [typeof x === 'string' ? x : null] *)
Definition stringOrNull (x : option JsValue) : option string :=
  match x with
  | Some (JStr s) => Some s
  | _ => None
  end.

(** ** Error taxonomy ([errors.ts]) *)

Inductive AuthErrorCode : Type :=
  | UNAUTHORIZED
  | INVALID_TOKEN
  | TOKEN_EXPIRED
  | FORBIDDEN.

(** The codes are string literals in the source. *)
Definition codeString (c : AuthErrorCode) : string :=
  match c with
  | UNAUTHORIZED => "UNAUTHORIZED"
  | INVALID_TOKEN => "INVALID_TOKEN"
  | TOKEN_EXPIRED => "TOKEN_EXPIRED"
  | FORBIDDEN => "FORBIDDEN"
  end.

(** The literal type [401 | 403]. *)
Inductive StatusCode : Type :=
  | Status401
  | Status403.

Definition statusNumber (s : StatusCode) : Z :=
  match s with
  | Status401 => 401
  | Status403 => 403
  end.

Record AuthError : Type := mkAuthError {
  name : string;
  code : AuthErrorCode;
  message : string;
  statusCode : StatusCode
}.

(** [new AuthError(code, message, statusCode?)] *)
Definition newAuthError (code : AuthErrorCode) (message : string)
    (statusCode : option StatusCode) : AuthError :=
  {| name := "AuthError";
     code := code;
     message := message;
     statusCode :=
       match statusCode with
       | Some s => s
       | None =>
           match code with
           | FORBIDDEN => Status403
           | _ => Status401
           end
       end |}.

(** [toResponse()]: the object literal
    [{ error: { code: this.code, message: this.message } }]. *)
Definition toResponse (e : AuthError) : JsValue :=
  JObj {[ "error" :=
            JObj (<[ "code" := JStr (codeString (code e)) ]>
                    {[ "message" := JStr (message e) ]}) ]}.

(** Values that can be thrown: an [AuthError], any other [Error] instance
    (with its [name] and [message]), or a value that is not an [Error]. *)
Inductive Thrown : Type :=
  | ThrowAuth (e : AuthError)
  | ThrowError (errName errMessage : string)
  | ThrowValue (v : JsValue).

(** [error instanceof AuthError] *)
Definition isAuthError (error : Thrown) : bool :=
  match error with
  | ThrowAuth _ => true
  | _ => false
  end.

(** [error instanceof Error]: [AuthError] extends [Error]. *)
Definition instanceofError (error : Thrown) : bool :=
  match error with
  | ThrowAuth _ | ThrowError _ _ => true
  | ThrowValue _ => false
  end.

(** [error.message] of an [Error] instance. *)
Definition thrownMessage (error : Thrown) : string :=
  match error with
  | ThrowAuth e => message e
  | ThrowError _ m => m
  | ThrowValue _ => ""
  end.

(** ** Identity record ([context.ts]) *)

(** The claim set returned by the provider: the two claims the code reads
    as fields, and every other property, read by key. *)
Record JwtPayload : Type := mkJwtPayload {
  sub : string;
  sid : option string;
  claims : gmap string JsValue
}.

Record UserContext : Type := mkUserContext {
  userId : string;
  sessionId : string;
  email : option string;
  firstName : option string;
  lastName : option string;
  imageUrl : option string;
  orgId : option string;
  orgRole : option string;
  orgSlug : option string;
  publicMetadata : gmap string JsValue;
  privateMetadata : gmap string JsValue;
  raw : JwtPayload
}.

(** ** Requests, options and observable effects *)

Record RouteConfig : Type := mkRouteConfig {
  public : option bool
}.

(** The part of a [FastifyRequest] the package reads or writes. *)
Record FastifyRequest : Type := mkRequest {
  headers_authorization : option string;
  headers_user_agent : option string;
  cookies : option (gmap string string);
  routeOptions_config : option RouteConfig;
  method : string;
  url : string;
  ip : string;
  user : option UserContext
}.

Definition withUser (r : FastifyRequest) (u : option UserContext) : FastifyRequest :=
  {| headers_authorization := headers_authorization r;
     headers_user_agent := headers_user_agent r;
     cookies := cookies r;
     routeOptions_config := routeOptions_config r;
     method := method r;
     url := url r;
     ip := ip r;
     user := u |}.

(** [TokenVerificationOptions] of [token.ts]; the [VerifyTokenOptions]
    object handed to the provider carries the same three fields. *)
Record TokenVerificationOptions : Type := mkVerifyOptions {
  secretKey : string;
  authorizedParties : option (list string);
  jwtKey : option string
}.

(** [AuthPluginOptions] of [plugin.ts].  The failure observer returns
    [None] when it returns normally and [Some t] when it throws [t]. *)
Record AuthPluginOptions : Type := mkPluginOptions {
  opt_secretKey : option string;
  opt_authorizedParties : option (list string);
  opt_jwtKey : option string;
  respectPublicRoutes : option bool;
  logFailures : option bool;
  onAuthFailure : option (AuthError -> FastifyRequest -> option Thrown)
}.

(** The external verification oracle, [clerkVerifyToken]: a claim set, or
    a thrown failure. *)
Definition Oracle : Type :=
  string -> TokenVerificationOptions -> Thrown + JwtPayload.

(** Calls a handler makes to its collaborators, in program order. *)
Inductive Event : Type :=
  | CallExtractToken
  | CallVerifyToken (token : string)
  | CallClerkVerifyToken (token : string) (options : TokenVerificationOptions)
  | CallLogWarn (errorCode : AuthErrorCode) (errorMessage : string)
      (reqMethod reqUrl reqIp : string) (userAgent : option string)
      (msg : string)
  | CallOnAuthFailure (e : AuthError).

Record State : Type := mkState {
  request : FastifyRequest;
  trace : list Event
}.

(** ** Handlers as state-and-error computations *)

Definition M (A : Type) : Type := State -> (Thrown + A) * State.

Definition ret {A : Type} (a : A) : M A :=
  fun st => (inr a, st).

Definition throw {A : Type} (t : Thrown) : M A :=
  fun st => (inl t, st).

Definition bind {A B : Type} (c : M A) (k : A -> M B) : M B :=
  fun st =>
    match c st with
    | (inr a, st') => k a st'
    | (inl t, st') => (inl t, st')
    end.

(** [try { c } catch (error) { h error }] *)
Definition tryCatch {A : Type} (c : M A) (h : Thrown -> M A) : M A :=
  fun st =>
    match c st with
    | (inr a, st') => (inr a, st')
    | (inl t, st') => h t st'
    end.

Definition emit (e : Event) : M unit :=
  fun st => (inr tt, {| request := request st; trace := trace st ++ [e] |}).

Definition getRequest : M FastifyRequest :=
  fun st => (inr (request st), st).

(** [request.user = u] *)
Definition setUser (u : UserContext) : M unit :=
  fun st =>
    (inr tt, {| request := withUser (request st) (Some u); trace := trace st |}).

Notation "'let!' x ':=' c 'in' k" := (bind c (fun x => k))
  (at level 10, x name, c at level 100, k at level 200).
Notation "'run!' c 'in' k" := (bind c (fun _ => k))
  (at level 10, c at level 100, k at level 200).

Definition outcome {A : Type} (r : (Thrown + A) * State) : Thrown + A := fst r.
Definition final {A : Type} (r : (Thrown + A) * State) : State := snd r.

(** ** Credential extraction and delegated verification ([token.ts]) *)

(** Priority: [Authorization] header, then the [__session] cookie. *)
Definition extractToken (request : FastifyRequest) : option string :=
  let authHeader := headers_authorization request in
  let bearer :=
    match authHeader with
    | Some h =>
        if JsString.startsWith h "Bearer " then Some (JsString.slice h 7)
        else None
    | None => None
    end in
  match bearer with
  | Some token => Some token
  | None =>
      let sessionCookie :=
        match cookies request with
        | Some jar => jar !! "__session"
        | None => None
        end in
      match sessionCookie with
      | Some c => if JsString.truthy c then Some c else None
      | None => None
      end
  end.

(** [x ?? {}] after the cast to a record. *)
Definition metadataOrEmpty (x : option JsValue) : gmap string JsValue :=
  match x with
  | None | Some JNull => ∅
  | Some v => asRecord v
  end.

Definition mapClerkPayloadToUserContext (payload : JwtPayload) : UserContext :=
  {| userId := sub payload;
     sessionId := match sid payload with Some s => s | None => "" end;
     email := stringOrNull (claims payload !! "email");
     firstName := stringOrNull (claims payload !! "first_name");
     lastName := stringOrNull (claims payload !! "last_name");
     imageUrl := stringOrNull (claims payload !! "image_url");
     orgId := stringOrNull (claims payload !! "org_id");
     orgRole := stringOrNull (claims payload !! "org_role");
     orgSlug := stringOrNull (claims payload !! "org_slug");
     publicMetadata := metadataOrEmpty (claims payload !! "public_metadata");
     privateMetadata := metadataOrEmpty (claims payload !! "private_metadata");
     raw := payload |}.

(** The [verifyOptions] object built from the caller's options. *)
Definition toVerifyTokenOptions (options : TokenVerificationOptions)
    : TokenVerificationOptions :=
  {| secretKey := secretKey options;
     authorizedParties := authorizedParties options;
     jwtKey := jwtKey options |}.

(** [await clerkVerifyToken(token, verifyOptions)] *)
Definition callClerk (clerk : Oracle) (token : string)
    (verifyOptions : TokenVerificationOptions) : M JwtPayload :=
  run! emit (CallClerkVerifyToken token verifyOptions) in
  fun st => (clerk token verifyOptions, st).

Definition verifyToken (clerk : Oracle) (token : string)
    (options : TokenVerificationOptions) : M UserContext :=
  let verifyOptions := toVerifyTokenOptions options in
  tryCatch
    (let! payload := callClerk clerk token verifyOptions in
     ret (mapClerkPayloadToUserContext payload))
    (fun error =>
       if instanceofError error
          && JsString.includes (thrownMessage error) "expired"
       then throw (ThrowAuth (newAuthError TOKEN_EXPIRED "Token has expired" None))
       else throw (ThrowAuth
                     (newAuthError INVALID_TOKEN "Invalid or malformed token" None))).

(** ** The gate ([plugin.ts]) *)

(** [flag !== false] for an optional boolean option. *)
Definition notFalse (flag : option bool) : bool :=
  match flag with
  | Some false => false
  | _ => true
  end.

(** Truthiness of [routeConfig?.public]. *)
Definition routeIsPublic (routeConfig : option RouteConfig) : bool :=
  match routeConfig with
  | Some c =>
      match public c with
      | Some true => true
      | _ => false
      end
  | None => false
  end.

Definition logAuthFailure (error : AuthError) (options : AuthPluginOptions) : M unit :=
  let! request := getRequest in
  run! (if notFalse (logFailures options)
        then emit (CallLogWarn (code error) (message error)
                     (method request) (url request) (ip request)
                     (headers_user_agent request)
                     ("Auth failure: " +:+ codeString (code error)))
        else ret tt) in
  match onAuthFailure options with
  | Some observer =>
      run! emit (CallOnAuthFailure error) in
      match observer error request with
      | Some t => throw t
      | None => ret tt
      end
  | None => ret tt
  end.

Definition createAuthPreHandler (clerk : Oracle) (options : AuthPluginOptions)
    (verifyOptions : TokenVerificationOptions) : M unit :=
  let! request := getRequest in
  if notFalse (respectPublicRoutes options)
     && routeIsPublic (routeOptions_config request)
  then ret tt
  else
    run! emit CallExtractToken in
    let token := extractToken request in
    let missing :=
      let error := newAuthError UNAUTHORIZED "Authentication required" None in
      run! logAuthFailure error options in
      throw (ThrowAuth error) in
    match token with
    | None => missing
    | Some token =>
        if negb (JsString.truthy token) then missing
        else
          tryCatch
            (run! emit (CallVerifyToken token) in
             let! u := verifyToken clerk token verifyOptions in
             setUser u)
            (fun error =>
               run! (match error with
                     | ThrowAuth e => logAuthFailure e options
                     | _ => ret tt
                     end) in
               throw error)
    end.

(** The part of a [FastifyReply] the error mapper sets. *)
Record FastifyReply : Type := mkReply {
  reply_status : Z;
  reply_payload : option JsValue
}.

(** [reply.status(n).send(body)]; any other error is thrown again. *)
Definition authErrorHandler (error : Thrown) (reply : FastifyReply)
    : Thrown + FastifyReply :=
  match error with
  | ThrowAuth e =>
      inr {| reply_status := statusNumber (statusCode e);
             reply_payload := Some (toResponse e) |}
  | _ => inl error
  end.

(** Registration: the secret comes from the options or from the
    environment; [decorateRequest('user', null)] clears the identity slot. *)
Definition authPluginImpl (options : AuthPluginOptions) (env : option string)
    : Thrown + TokenVerificationOptions :=
  let secret :=
    match opt_secretKey options with
    | Some k => Some k
    | None => env
    end in
  match secret with
  | Some k =>
      if JsString.truthy k
      then inr {| secretKey := k;
                  authorizedParties := opt_authorizedParties options;
                  jwtKey := opt_jwtKey options |}
      else inl (ThrowError "Error"
                  "CLERK_SECRET_KEY is required. Set it via options.secretKey or CLERK_SECRET_KEY environment variable.")
  | None =>
      inl (ThrowError "Error"
             "CLERK_SECRET_KEY is required. Set it via options.secretKey or CLERK_SECRET_KEY environment variable.")
  end.

Definition decorateRequest (r : FastifyRequest) : State :=
  {| request := withUser r None; trace := [] |}.

(** ** Guards ([permissions.ts]) *)

(** Strict equality of an array element with the string [s]. *)
Definition isString (s : string) (v : JsValue) : bool :=
  match v with
  | JStr t => String.eqb t s
  | _ => false
  end.

(** [x?.includes(s)] on an entry of a metadata bag, for a string [s].
    An absent or null entry short-circuits to [undefined] ([inr None]);
    an array searches its elements; a string searches for a substring; any
    other value has no callable [includes] and the call throws a
    [TypeError] ([what] is the text of the callee, as the engine reports). *)
Definition optIncludes (what : string) (x : option JsValue) (s : string)
    : Thrown + option bool :=
  match x with
  | None | Some JNull => inr None
  | Some (JArr items) => inr (Some (existsb (isString s) items))
  | Some (JStr t) => inr (Some (JsString.includes t s))
  | Some _ => inl (ThrowError "TypeError" (what +:+ " is not a function"))
  end.

(** [l.every(cb)]: stops at the first element the callback rejects. *)
Fixpoint every {A : Type} (cb : A -> Thrown + bool) (l : list A) : Thrown + bool :=
  match l with
  | [] => inr true
  | x :: rest =>
      match cb x with
      | inl t => inl t
      | inr false => inr false
      | inr true => every cb rest
      end
  end.

(** Middleware factory for custom permission checks; the message defaults
    to ['Insufficient permissions']. *)
Definition requirePermission (check : UserContext -> Thrown + bool)
    (errorMessage : option string) : M unit :=
  let errorMessage :=
    match errorMessage with
    | Some m => m
    | None => "Insufficient permissions"
    end in
  let! request := getRequest in
  match user request with
  | None => throw (ThrowAuth (newAuthError UNAUTHORIZED "Authentication required" None))
  | Some u =>
      match check u with
      | inl t => throw t
      | inr false => throw (ThrowAuth (newAuthError FORBIDDEN errorMessage None))
      | inr true => ret tt
      end
  end.

(** A check that returns a boolean and never throws. *)
Definition total (p : UserContext -> bool) : UserContext -> Thrown + bool :=
  fun u => inr (p u).

Definition requireRole (role : string) : M unit :=
  requirePermission
    (fun user =>
       let roles := publicMetadata user !! "roles" in
       match optIncludes "roles?.includes" roles role with
       | inl t => inl t
       | inr (Some b) => inr b
       | inr None => inr false
       end)
    (Some ("Role '" +:+ role +:+ "' required")).

Definition requireScopes (scopes : list string) : M unit :=
  requirePermission
    (fun user =>
       let userScopes := publicMetadata user !! "scopes" in
       every
         (fun s =>
            match optIncludes "userScopes?.includes" userScopes s with
            | inl t => inl t
            | inr (Some b) => inr b
            | inr None => inr false
            end)
         scopes)
    (Some ("Scopes required: " +:+ JsString.join ", " scopes)).

Definition requireOrgMembership : M unit :=
  requirePermission
    (total (fun user => match orgId user with Some _ => true | None => false end))
    (Some "Organization membership required").

Definition requireOrgRole (role : string) : M unit :=
  requirePermission
    (total (fun user =>
              match orgRole user with
              | Some r => String.eqb r role
              | None => false
              end))
    (Some ("Organization role '" +:+ role +:+ "' required")).

Definition getUser : M UserContext :=
  let! request := getRequest in
  match user request with
  | None => throw (ThrowAuth (newAuthError UNAUTHORIZED "Authentication required" None))
  | Some u => ret u
  end.

(** ** Sample data, after the package's test helpers *)

Definition emptyRequest : FastifyRequest :=
  {| headers_authorization := None;
     headers_user_agent := None;
     cookies := None;
     routeOptions_config := None;
     method := "GET";
     url := "/";
     ip := "127.0.0.1";
     user := None |}.

Definition withAuthorization (r : FastifyRequest) (h : option string) : FastifyRequest :=
  {| headers_authorization := h;
     headers_user_agent := headers_user_agent r;
     cookies := cookies r;
     routeOptions_config := routeOptions_config r;
     method := method r;
     url := url r;
     ip := ip r;
     user := user r |}.

Definition withCookies (r : FastifyRequest) (c : option (gmap string string)) : FastifyRequest :=
  {| headers_authorization := headers_authorization r;
     headers_user_agent := headers_user_agent r;
     cookies := c;
     routeOptions_config := routeOptions_config r;
     method := method r;
     url := url r;
     ip := ip r;
     user := user r |}.

Definition withRouteConfig (r : FastifyRequest) (c : option RouteConfig) : FastifyRequest :=
  {| headers_authorization := headers_authorization r;
     headers_user_agent := headers_user_agent r;
     cookies := cookies r;
     routeOptions_config := c;
     method := method r;
     url := url r;
     ip := ip r;
     user := user r |}.

Definition defaultOptions : AuthPluginOptions :=
  {| opt_secretKey := Some "sk_test_123456789012345678901234567890";
     opt_authorizedParties := None;
     opt_jwtKey := None;
     respectPublicRoutes := None;
     logFailures := None;
     onAuthFailure := None |}.

Definition testVerifyOptions : TokenVerificationOptions :=
  {| secretKey := "sk_test_123456789012345678901234567890";
     authorizedParties := None;
     jwtKey := None |}.

Definition emptyPayload : JwtPayload :=
  {| sub := "user_test_123"; sid := Some "sess_test_123"; claims := ∅ |}.

(** [createMockUser()] of the testing helpers. *)
Definition createMockUser : UserContext :=
  {| userId := "user_test_123";
     sessionId := "sess_test_123";
     email := Some "test@example.com";
     firstName := Some "Test";
     lastName := Some "User";
     imageUrl := None;
     orgId := None;
     orgRole := None;
     orgSlug := None;
     publicMetadata := ∅;
     privateMetadata := ∅;
     raw := emptyPayload |}.

Definition withPublicMetadata (u : UserContext) (m : gmap string JsValue) : UserContext :=
  {| userId := userId u;
     sessionId := sessionId u;
     email := email u;
     firstName := firstName u;
     lastName := lastName u;
     imageUrl := imageUrl u;
     orgId := orgId u;
     orgRole := orgRole u;
     orgSlug := orgSlug u;
     publicMetadata := m;
     privateMetadata := privateMetadata u;
     raw := raw u |}.

(** An oracle that rejects every credential with the given failure. *)
Definition rejecting (t : Thrown) : Oracle := fun _ _ => inl t.

(** An oracle that accepts every credential with the given claim set. *)
Definition accepting (payload : JwtPayload) : Oracle := fun _ _ => inr payload.

(** ** Vocabulary of the statements *)

(** The header does not carry the bearer scheme: it is absent, or it does
    not start with the prefix. *)
Definition notBearer (h : option string) : Prop :=
  match h with
  | Some a => JsString.startsWith a "Bearer " = false
  | None => True
  end.

(** The value of the [__session] cookie, when the request has one. *)
Definition sessionCookieOf (request : FastifyRequest) : option string :=
  match cookies request with
  | Some jar => jar !! "__session"
  | None => None
  end.

(** The [scopes] entry of the public metadata is absent (or null), or an
    array: the shapes allowed by the cast [as string[] | undefined]. *)
Definition scopesAbsentOrList (u : UserContext) : Prop :=
  match publicMetadata u !! "scopes" with
  | None | Some JNull | Some (JArr _) => True
  | Some _ => False
  end.

(** The caller's scopes list; an absent entry counts as the empty list. *)
Definition scopesList (u : UserContext) : list JsValue :=
  match publicMetadata u !! "scopes" with
  | Some (JArr items) => items
  | _ => []
  end.

(** The events a computation adds to the trace. *)
Definition emitted {A : Type} (st : State) (r : (Thrown + A) * State)
    (evs : list Event) : Prop :=
  trace (final r) = trace st ++ evs.


(** The route is let through unauthenticated: public-route recognition is
    not switched off and the route configuration carries the marker. *)
Definition publicBypass (options : AuthPluginOptions) (r : FastifyRequest) : bool :=
  notFalse (respectPublicRoutes options) && routeIsPublic (routeOptions_config r).

(** The failure observer, if one is configured, returns normally. *)
Definition observerReturns (options : AuthPluginOptions) (error : AuthError)
    (r : FastifyRequest) : Prop :=
  match onAuthFailure options with
  | Some observer => observer error r = None
  | None => True
  end.


(** The three organization fields of a record are null together or
    populated together. *)
Definition orgFieldsConsistent (u : UserContext) : Prop :=
  (orgId u = None /\ orgRole u = None /\ orgSlug u = None) \/
  (orgId u <> None /\ orgRole u <> None /\ orgSlug u <> None).

(** The same, for the three organization claims of a claim set, a claim
    counting as present when it is a string. *)
Definition orgClaimsConsistent (payload : JwtPayload) : Prop :=
  (stringOrNull (claims payload !! "org_id") = None /\
   stringOrNull (claims payload !! "org_role") = None /\
   stringOrNull (claims payload !! "org_slug") = None) \/
  (stringOrNull (claims payload !! "org_id") <> None /\
   stringOrNull (claims payload !! "org_role") <> None /\
   stringOrNull (claims payload !! "org_slug") <> None).

(** The failure reports expiry, as far as the delegate can tell: it is an
    [Error] whose message mentions "expired" somewhere. *)
Definition indicatesExpiry (failure : Thrown) : Prop :=
  instanceofError failure = true /\
  exists a b, thrownMessage failure = a +:+ "expired" +:+ b.

(** A claim set with an organization role and no organization. *)
Definition roleOnlyPayload : JwtPayload :=
  {| sub := "user_123";
     sid := Some "sess_123";
     claims := {[ "org_role" := JStr "admin" ]} |}.

(** A claim set whose subject claim is the empty string. *)
Definition emptySubjectPayload : JwtPayload :=
  {| sub := ""; sid := Some "sess_123"; claims := ∅ |}.

(** A request that carries the bearer prefix and nothing after it. *)
Definition emptyBearerRequest : FastifyRequest :=
  withAuthorization emptyRequest (Some "Bearer ").


(** The typed error the delegate raises for an oracle failure. *)
Definition classify (error : Thrown) : AuthError :=
  if instanceofError error && JsString.includes (thrownMessage error) "expired"
  then newAuthError TOKEN_EXPIRED "Token has expired" None
  else newAuthError INVALID_TOKEN "Invalid or malformed token" None.

(** ** Test helpers ([testing/index.ts]) *)

(** [Partial<UserContext>]: [None] is a key the caller did not give. *)
Record UserOverrides : Type := mkUserOverrides {
  o_userId : option string;
  o_sessionId : option string;
  o_email : option (option string);
  o_firstName : option (option string);
  o_lastName : option (option string);
  o_imageUrl : option (option string);
  o_orgId : option (option string);
  o_orgRole : option (option string);
  o_orgSlug : option (option string);
  o_publicMetadata : option (gmap string JsValue);
  o_privateMetadata : option (gmap string JsValue);
  o_raw : option JwtPayload
}.

(** [{}], the default of the [overrides] parameter. *)
Definition noOverrides : UserOverrides :=
  {| o_userId := None;
     o_sessionId := None;
     o_email := None;
     o_firstName := None;
     o_lastName := None;
     o_imageUrl := None;
     o_orgId := None;
     o_orgRole := None;
     o_orgSlug := None;
     o_publicMetadata := None;
     o_privateMetadata := None;
     o_raw := None |}.

(** A given key of the spread [...overrides] replaces the default. *)
Definition overridden {A : Type} (dflt : A) (o : option A) : A :=
  match o with
  | Some a => a
  | None => dflt
  end.

(** [createMockUser(overrides)].  The default [raw] is [{} as JwtPayload],
    an object with none of the payload's fields; no claim set stands for
    it, so it is the parameter [emptyRaw]. *)
Definition createMockUserWith (emptyRaw : JwtPayload) (overrides : UserOverrides)
    : UserContext :=
  {| userId := overridden "user_test_123" (o_userId overrides);
     sessionId := overridden "sess_test_123" (o_sessionId overrides);
     email := overridden (Some "test@example.com") (o_email overrides);
     firstName := overridden (Some "Test") (o_firstName overrides);
     lastName := overridden (Some "User") (o_lastName overrides);
     imageUrl := overridden None (o_imageUrl overrides);
     orgId := overridden None (o_orgId overrides);
     orgRole := overridden None (o_orgRole overrides);
     orgSlug := overridden None (o_orgSlug overrides);
     publicMetadata := overridden ∅ (o_publicMetadata overrides);
     privateMetadata := overridden ∅ (o_privateMetadata overrides);
     raw := overridden emptyRaw (o_raw overrides) |}.

(** [mockAuth(userOverrides)]: a pre-handler that injects a mock user. *)
Definition mockAuth (emptyRaw : JwtPayload) (userOverrides : UserOverrides) : M unit :=
  setUser (createMockUserWith emptyRaw userOverrides).

(** An array of strings as a runtime value. *)
Definition stringArray (l : list string) : JsValue :=
  JArr (map JStr l).

Definition withMetadataOverride (m : gmap string JsValue) : UserOverrides :=
  {| o_userId := None;
     o_sessionId := None;
     o_email := None;
     o_firstName := None;
     o_lastName := None;
     o_imageUrl := None;
     o_orgId := None;
     o_orgRole := None;
     o_orgSlug := None;
     o_publicMetadata := Some m;
     o_privateMetadata := None;
     o_raw := None |}.

(** [createMockUser({ publicMetadata: { roles } })] *)
Definition createMockUserWithRoles (emptyRaw : JwtPayload) (roles : list string)
    : UserContext :=
  createMockUserWith emptyRaw
    (withMetadataOverride {[ "roles" := stringArray roles ]}).

(** [createMockUser({ publicMetadata: { scopes } })] *)
Definition createMockUserWithScopes (emptyRaw : JwtPayload) (scopes : list string)
    : UserContext :=
  createMockUserWith emptyRaw
    (withMetadataOverride {[ "scopes" := stringArray scopes ]}).

(** [createMockOrgUser(orgId, orgRole, orgSlug?)]; the slug defaults to
    [orgId.replace('org_', '')]. *)
Definition createMockOrgUser (emptyRaw : JwtPayload) (orgId orgRole : string)
    (orgSlug : option string) : UserContext :=
  createMockUserWith emptyRaw
    {| o_userId := None;
       o_sessionId := None;
       o_email := None;
       o_firstName := None;
       o_lastName := None;
       o_imageUrl := None;
       o_orgId := Some (Some orgId);
       o_orgRole := Some (Some orgRole);
       o_orgSlug :=
         Some (Some (match orgSlug with
                     | Some slug => slug
                     | None => JsString.replace orgId "org_" ""
                     end));
       o_publicMetadata := None;
       o_privateMetadata := None;
       o_raw := None |}.

(** ** Further vocabulary *)

(** The calls made when a failure is reported: the warning, unless logging
    is switched off, then the observer, if one is configured. *)
Definition reportEvents (options : AuthPluginOptions) (error : AuthError)
    (r : FastifyRequest) : list Event :=
  (if notFalse (logFailures options)
   then [CallLogWarn (code error) (message error) (method r) (url r) (ip r)
           (headers_user_agent r)
           ("Auth failure: " +:+ codeString (code error))]
   else []) ++
  match onAuthFailure options with
  | Some _ => [CallOnAuthFailure error]
  | None => []
  end.

(** What is thrown once a failure has been reported: the failure itself,
    unless the observer threw first. *)
Definition thrownAfterReport (options : AuthPluginOptions) (error : AuthError)
    (r : FastifyRequest) : Thrown :=
  match onAuthFailure options with
  | Some observer =>
      match observer error r with
      | Some t => t
      | None => ThrowAuth error
      end
  | None => ThrowAuth error
  end.

(** The failure observer, if any, never throws. *)
Definition observerNeverThrows (options : AuthPluginOptions) : Prop :=
  match onAuthFailure options with
  | Some observer => forall error r, observer error r = None
  | None => True
  end.

Definition isLogWarn (e : Event) : bool :=
  match e with
  | CallLogWarn _ _ _ _ _ _ _ => true
  | _ => false
  end.

Definition isOracleCall (e : Event) : bool :=
  match e with
  | CallClerkVerifyToken _ _ => true
  | _ => false
  end.

Definition isObserverCall (e : Event) : bool :=
  match e with
  | CallOnAuthFailure _ => true
  | _ => false
  end.

(** The [roles] entry of the public metadata is absent (or null), or an
    array: the shapes allowed by the cast [as string[] | undefined]. *)
Definition rolesAbsentOrList (u : UserContext) : Prop :=
  match publicMetadata u !! "roles" with
  | None | Some JNull | Some (JArr _) => True
  | Some _ => False
  end.

(** The caller's roles list; an absent entry counts as the empty list. *)
Definition rolesList (u : UserContext) : list JsValue :=
  match publicMetadata u !! "roles" with
  | Some (JArr items) => items
  | _ => []
  end.

(** A metadata entry that is neither absent, null, an array nor a string:
    it has no [includes] method. *)
Definition notSearchable (x : option JsValue) : Prop :=
  match x with
  | Some (JBool _) | Some (JNum _) | Some (JObj _) => True
  | _ => False
  end.

(** The state of a request with the given identity slot. *)
Definition withIdentity (st : State) (u : option UserContext) : State :=
  {| request := withUser (request st) u; trace := trace st |}.

(** ** Statements that do not hold of the code *)

(** The statement that the delegate classifies an oracle failure by its
    reason, for a given reading [expiry] of "the reason indicates temporal
    expiry": expiry reasons give [TOKEN_EXPIRED], all others
    [INVALID_TOKEN]. *)
Definition classifiesByReason (expiry : Thrown -> Prop) : Prop :=
  forall (clerk : Oracle) (token : string) (options : TokenVerificationOptions)
         (st : State) (failure : Thrown),
    clerk token options = inl failure ->
    (expiry failure ->
     outcome (verifyToken clerk token options st)
     = inl (ThrowAuth (newAuthError TOKEN_EXPIRED "Token has expired" None))) /\
    (~ expiry failure ->
     outcome (verifyToken clerk token options st)
     = inl (ThrowAuth (newAuthError INVALID_TOKEN "Invalid or malformed token" None))).

(** An expiry failure whose message spells the word with a capital. *)
Definition capitalExpiredFailure : Thrown :=
  ThrowError "Error" "Token Expired".

(** A failure for another reason whose message happens to hold the word. *)
Definition audienceFailure : Thrown :=
  ThrowError "Error" "Invalid audience: unexpired-sessions".

(** The statement that the scope guard passes exactly when every target
    is in the caller's scopes list. *)
Definition scopesGuardMatchesList (targets : list string) (st : State)
    (u : UserContext) : Prop :=
  requireScopes targets st = (inr tt, st) <->
  forall s, In s targets -> In (JStr s) (scopesList u).

(** An identity whose [scopes] entry is one string, not a list. *)
Definition textScopesUser : UserContext :=
  withPublicMetadata createMockUser {[ "scopes" := JStr "read:all write:own" ]}.

Definition textScopesState : State :=
  {| request := withUser emptyRequest (Some textScopesUser); trace := [] |}.

(** * Properties *)

(** ** Facts about the string primitives *)

Section StringFacts.
Import JsString.

Lemma startsWith_app (p r : string) : startsWith (p +:+ r) p = true.
Proof.
  induction p as [|c p IH]; simpl.
  - reflexivity.
  - rewrite Ascii.eqb_refl. exact IH.
Qed.

Lemma startsWith_inv (s p : string) :
  startsWith s p = true -> exists r, s = p +:+ r.
Proof.
  revert s. induction p as [|c p IH]; intros s H.
  - exists s. reflexivity.
  - destruct s as [|d s]; simpl in H; [discriminate|].
    apply andb_true_iff in H as [Hc Hs].
    apply Ascii.eqb_eq in Hc. subst d.
    destruct (IH _ Hs) as [r ->].
    exists r. reflexivity.
Qed.

Lemma startsWith_spec (s p : string) :
  startsWith s p = true <-> exists r, s = p +:+ r.
Proof.
  split.
  - apply startsWith_inv.
  - intros [r ->]. apply startsWith_app.
Qed.

Lemma slice_app (p r : string) : slice (p +:+ r) (String.length p) = r.
Proof.
  induction p as [|c p IH]; simpl.
  - destruct r; reflexivity.
  - exact IH.
Qed.

Lemma includes_intro (a sub b : string) :
  includes (a +:+ sub +:+ b) sub = true.
Proof.
  induction a as [|c a IH].
  - simpl String.app.
    destruct (sub +:+ b) eqn:E; simpl; rewrite <- ?E;
      rewrite startsWith_app; reflexivity.
  - simpl. rewrite IH. apply orb_true_r.
Qed.

Lemma includes_inv (s sub : string) :
  includes s sub = true -> exists a b, s = a +:+ sub +:+ b.
Proof.
  induction s as [|c s IH]; simpl; intros H.
  - rewrite orb_false_r in H.
    apply startsWith_inv in H as [r Hr].
    exists "", r. exact Hr.
  - apply orb_true_iff in H as [H|H].
    + apply startsWith_inv in H as [r Hr].
      exists "", r. exact Hr.
    + destruct (IH H) as (a & b & ->).
      exists (String c a), b. reflexivity.
Qed.

(** [includes] is exactly "occurs somewhere as a contiguous substring". *)
Lemma includes_spec (s sub : string) :
  includes s sub = true <-> exists a b, s = a +:+ sub +:+ b.
Proof.
  split.
  - apply includes_inv.
  - intros (a & b & ->). apply includes_intro.
Qed.

Lemma truthy_spec (s : string) : truthy s = true <-> s <> "".
Proof.
  destruct s; simpl; split; intros H; congruence.
Qed.

End StringFacts.

(** ** Running handlers *)

Ltac run_handler :=
  unfold outcome, final, bind, ret, throw, tryCatch, emit, getRequest, setUser in *;
  simpl in *.

Lemma toVerifyTokenOptions_id (options : TokenVerificationOptions) :
  toVerifyTokenOptions options = options.
Proof. destruct options; reflexivity. Qed.

(** ** Credential extraction *)

Lemma bearer_header_splits (h : string) :
  JsString.startsWith h "Bearer " = true ->
  h = "Bearer " +:+ JsString.slice h 7.
Proof.
  intros H. apply startsWith_inv in H as [r ->].
  change 7 with (String.length "Bearer ").
  rewrite slice_app. reflexivity.
Qed.

(** C4. Extraction looks at the Authorization header first and at the
    [__session] cookie second.  A header with the bearer prefix yields the
    text after the prefix verbatim (possibly empty), whatever the cookies
    are; a credential is taken from the cookie, verbatim, only when the
    header is absent or not a bearer header; and when neither source
    yields a value (no cookie, or an empty one) the result is "none
    found". *)
Theorem extractToken_priority (request : FastifyRequest) :
  (forall token,
      headers_authorization request = Some ("Bearer " +:+ token) ->
      extractToken request = Some token /\
      forall jar, extractToken (withCookies request jar) = Some token) /\
  (forall c,
      notBearer (headers_authorization request) ->
      sessionCookieOf request = Some c -> c <> "" ->
      extractToken request = Some c) /\
  (forall token,
      extractToken request = Some token ->
      headers_authorization request = Some ("Bearer " +:+ token) \/
      (notBearer (headers_authorization request) /\
       sessionCookieOf request = Some token)) /\
  (notBearer (headers_authorization request) ->
   sessionCookieOf request = None \/ sessionCookieOf request = Some "" ->
   extractToken request = None).
Proof.
  unfold extractToken, sessionCookieOf, notBearer.
  split; [|split; [|split]].
  - intros token H.
    assert (Hs : JsString.startsWith ("Bearer " +:+ token) "Bearer " = true)
      by exact (startsWith_app "Bearer " token).
    assert (Hd : JsString.slice ("Bearer " +:+ token) 7 = token)
      by exact (slice_app "Bearer " token).
    split.
    + rewrite H, Hs, Hd. reflexivity.
    + intros jar. unfold withCookies.
      cbn [headers_authorization cookies].
      rewrite H, Hs, Hd. reflexivity.
  - intros c Hh Hc Hne.
    destruct (headers_authorization request) as [h|]; [rewrite Hh|];
      rewrite Hc; apply truthy_spec in Hne; rewrite Hne; reflexivity.
  - intros token H.
    destruct (headers_authorization request) as [h|].
    + destruct (JsString.startsWith h "Bearer ") eqn:E.
      * left. inversion H; subst. f_equal. apply bearer_header_splits, E.
      * right. split; [reflexivity|].
        destruct (match cookies request with Some jar => jar !! "__session" | None => None end) as [c|];
          [|discriminate].
        destruct (JsString.truthy c); [congruence|discriminate].
    + right. split; [exact I|].
      destruct (match cookies request with Some jar => jar !! "__session" | None => None end) as [c|];
        [|discriminate].
      destruct (JsString.truthy c); [congruence|discriminate].
  - intros Hh Hc.
    destruct (headers_authorization request) as [h|]; [rewrite Hh|];
      destruct Hc as [-> | ->]; reflexivity.
Qed.

Lemma extractToken_priority_witness :
  extractToken
    (withCookies (withAuthorization emptyRequest (Some "Basic credentials"))
       (Some {[ "__session" := "cookie-token" ]}))
  = Some "cookie-token".
Proof.
  apply (proj1 (proj2 (extractToken_priority
           (withCookies (withAuthorization emptyRequest (Some "Basic credentials"))
              (Some {[ "__session" := "cookie-token" ]}))))).
  - reflexivity.
  - reflexivity.
  - discriminate.
Defined.

(** ** Error taxonomy and the error mapper *)

(** C7. Kind and status agree: without an explicit status, [FORBIDDEN]
    carries 403 and the three other kinds carry 401; an explicit status
    given at construction is kept; and the error mapper answers an auth
    error with exactly its status and the body
    [{"error":{"code":<kind>,"message":<message>}}]. *)
Theorem status_follows_kind (c : AuthErrorCode) (m : string) (reply : FastifyReply) :
  statusNumber (statusCode (newAuthError c m None))
    = match c with FORBIDDEN => 403%Z | _ => 401%Z end /\
  (forall s, statusCode (newAuthError c m (Some s)) = s) /\
  (forall o,
      authErrorHandler (ThrowAuth (newAuthError c m o)) reply =
      inr {| reply_status := statusNumber (statusCode (newAuthError c m o));
             reply_payload :=
               Some (JObj {[ "error" :=
                               JObj (<[ "code" := JStr (codeString c) ]>
                                       {[ "message" := JStr m ]}) ]}) |}) /\
  (forall e,
      authErrorHandler (ThrowAuth e) reply =
      inr {| reply_status := statusNumber (statusCode e);
             reply_payload := Some (toResponse e) |}).
Proof.
  split; [|split; [|split]].
  - destruct c; reflexivity.
  - reflexivity.
  - reflexivity.
  - reflexivity.
Qed.

(** ** Guards *)

(** C8. The guard built by [requirePermission] from a predicate and a
    message fails with [UNAUTHORIZED] ("Authentication required", not the
    custom message) when no identity is attached; with an identity
    attached it fails with [FORBIDDEN] and the given message exactly when
    the predicate is false on it, and otherwise returns normally; in every
    case the request and the trace are left as they were. *)
Theorem requirePermission_guard (p : UserContext -> bool) (msg : string) (st : State) :
  requirePermission (total p) (Some msg) st =
  (match user (request st) with
   | None =>
       inl (ThrowAuth (newAuthError UNAUTHORIZED "Authentication required" None))
   | Some u =>
       if p u then inr tt
       else inl (ThrowAuth (newAuthError FORBIDDEN msg None))
   end, st).
Proof.
  unfold requirePermission, total. run_handler.
  destruct (user (request st)) as [u|]; [|reflexivity].
  destruct (p u); reflexivity.
Qed.

Lemma every_total {A : Type} (f : A -> bool) (l : list A) :
  every (fun x => inr (f x)) l = inr (forallb f l).
Proof.
  induction l as [|x l IH]; simpl.
  - reflexivity.
  - destruct (f x); [exact IH|reflexivity].
Qed.

Lemma every_ext {A : Type} (f g : A -> Thrown + bool) (l : list A) :
  (forall x, f x = g x) -> every f l = every g l.
Proof.
  intros H. induction l as [|x l IH]; simpl.
  - reflexivity.
  - rewrite H, IH. reflexivity.
Qed.

Lemma isString_spec (s : string) (v : JsValue) :
  isString s v = true <-> v = JStr s.
Proof.
  destruct v; simpl; split; intros H; try discriminate.
  - apply String.eqb_eq in H. subst. reflexivity.
  - inversion H. apply String.eqb_refl.
Qed.

Lemma includes_in_list (s : string) (items : list JsValue) :
  existsb (isString s) items = true <-> In (JStr s) items.
Proof.
  rewrite existsb_exists. split.
  - intros (v & Hin & Hv). apply isString_spec in Hv. subst. exact Hin.
  - intros Hin. exists (JStr s). split; [exact Hin|].
    apply isString_spec. reflexivity.
Qed.

(** The guard's predicate, when the scopes entry has a permitted shape. *)
Lemma scopes_check_total (u : UserContext) (scopes : list string) :
  scopesAbsentOrList u ->
  every
    (fun s =>
       match optIncludes "userScopes?.includes" (publicMetadata u !! "scopes") s with
       | inl t => inl t
       | inr (Some b) => inr b
       | inr None => inr false
       end)
    scopes
  = inr (forallb (fun s => existsb (isString s) (scopesList u)) scopes).
Proof.
  unfold scopesAbsentOrList, scopesList. intros H.
  rewrite <- every_total. apply every_ext. intros s.
  destruct (publicMetadata u !! "scopes") as [[| | | | |]|]; simpl;
    try contradiction; reflexivity.
Qed.

(** C9, as amended. With an identity attached whose [scopes] entry is a
    list or is absent, [requireScopes targets] succeeds exactly when every
    target scope occurs in that list (the empty list when absent); and
    [requireScopes []] succeeds for every identity record, whatever its
    metadata holds. *)
Theorem requireScopes_all_present (targets : list string) (st : State) (u : UserContext) :
  user (request st) = Some u ->
  (scopesAbsentOrList u ->
   (requireScopes targets st = (inr tt, st) <->
    forall s, In s targets -> In (JStr s) (scopesList u))) /\
  requireScopes [] st = (inr tt, st).
Proof.
  intros Hu. split.
  - intros Hshape. unfold requireScopes, requirePermission. run_handler.
    rewrite Hu, (scopes_check_total u targets Hshape).
    destruct (forallb _ targets) eqn:E.
    + split; [|reflexivity]. intros _ s Hs.
      rewrite forallb_forall in E. apply includes_in_list, E, Hs.
    + split; [discriminate|]. intros Hall. exfalso.
      assert (forallb (fun s => existsb (isString s) (scopesList u)) targets = true).
      { apply forallb_forall. intros s Hs. apply includes_in_list, Hall, Hs. }
      congruence.
  - unfold requireScopes, requirePermission. run_handler.
    rewrite Hu. reflexivity.
Qed.

Lemma requireScopes_all_present_witness :
  let u := withPublicMetadata createMockUser
             {[ "scopes" := JArr [JStr "read"; JStr "write"; JStr "delete"] ]} in
  let st := {| request := withUser emptyRequest (Some u); trace := [] |} in
  requireScopes ["read"; "write"] st = (inr tt, st).
Proof.
  intros u st.
  apply (proj1 (requireScopes_all_present ["read"; "write"] st u eq_refl)).
  - exact I.
  - intros s [<-|[<-|[]]]; vm_compute; auto.
Defined.

(** C9 fails as stated, for every identity record: when the [scopes]
    entry is a string the guard searches it as text, so it passes for
    targets that are in no list. *)
Lemma scopes_text_entry_passes :
  user (request textScopesState) = Some textScopesUser /\
  requireScopes ["read"; "write"] textScopesState = (inr tt, textScopesState) /\
  ~ In (JStr "read") (scopesList textScopesUser) /\
  ~ scopesGuardMatchesList ["read"; "write"] textScopesState textScopesUser.
Proof.
  assert (Hpass : requireScopes ["read"; "write"] textScopesState
                  = (inr tt, textScopesState)) by reflexivity.
  assert (Hout : ~ In (JStr "read") (scopesList textScopesUser)).
  { vm_compute. intros H. exact H. }
  split; [reflexivity|]. split; [exact Hpass|]. split; [exact Hout|].
  intros [Hall _]. apply Hout. apply (Hall Hpass). simpl. auto.
Qed.

(** ** Delegated verification *)

(** One run of the delegate: one call to the oracle, then either the
    mapped record or the classified failure. *)
Lemma verifyToken_run (clerk : Oracle) (token : string)
    (options : TokenVerificationOptions) (st : State) :
  verifyToken clerk token options st =
  (match clerk token options with
   | inr payload => inr (mapClerkPayloadToUserContext payload)
   | inl error => inl (ThrowAuth (classify error))
   end,
   {| request := request st;
      trace := trace st ++ [CallClerkVerifyToken token options] |}).
Proof.
  unfold verifyToken, callClerk, classify. rewrite toVerifyTokenOptions_id.
  run_handler.
  destruct (clerk token options) as [error|payload]; [|reflexivity].
  destruct (instanceofError error && JsString.includes (thrownMessage error) "expired");
    reflexivity.
Qed.

Lemma indicatesExpiry_test (failure : Thrown) :
  instanceofError failure && JsString.includes (thrownMessage failure) "expired" = true
  <-> indicatesExpiry failure.
Proof.
  unfold indicatesExpiry.
  rewrite andb_true_iff, includes_spec. reflexivity.
Qed.

Lemma classify_expired (failure : Thrown) :
  indicatesExpiry failure ->
  classify failure = newAuthError TOKEN_EXPIRED "Token has expired" None.
Proof.
  intros H. apply indicatesExpiry_test in H.
  unfold classify. rewrite H. reflexivity.
Qed.

Lemma classify_other (failure : Thrown) :
  ~ indicatesExpiry failure ->
  classify failure = newAuthError INVALID_TOKEN "Invalid or malformed token" None.
Proof.
  intros H. unfold classify.
  destruct (instanceofError failure && JsString.includes (thrownMessage failure) "expired") eqn:E;
    [|reflexivity].
  exfalso. apply H, indicatesExpiry_test, E.
Qed.

Lemma indicatesExpiry_dec (failure : Thrown) :
  indicatesExpiry failure \/ ~ indicatesExpiry failure.
Proof.
  destruct (instanceofError failure && JsString.includes (thrownMessage failure) "expired") eqn:E.
  - left. apply indicatesExpiry_test, E.
  - right. intros H. apply indicatesExpiry_test in H. congruence.
Qed.

(** C6, as amended. Every oracle failure becomes exactly one typed auth
    error, chosen by the thrown value alone and not by the oracle's
    reason: an [Error] whose message contains "expired" becomes
    [TOKEN_EXPIRED], every other failure becomes [INVALID_TOKEN]; and when
    the oracle succeeds the delegate returns the mapped record and raises
    nothing. *)
Theorem verifyToken_classifies (clerk : Oracle) (token : string)
    (options : TokenVerificationOptions) (st : State) :
  match clerk token options with
  | inr payload =>
      outcome (verifyToken clerk token options st)
      = inr (mapClerkPayloadToUserContext payload)
  | inl failure =>
      (indicatesExpiry failure /\
       outcome (verifyToken clerk token options st)
       = inl (ThrowAuth (newAuthError TOKEN_EXPIRED "Token has expired" None)))
      \/
      (~ indicatesExpiry failure /\
       outcome (verifyToken clerk token options st)
       = inl (ThrowAuth (newAuthError INVALID_TOKEN "Invalid or malformed token" None)))
  end.
Proof.
  rewrite verifyToken_run. unfold outcome. simpl.
  destruct (clerk token options) as [failure|payload]; [|reflexivity].
  destruct (indicatesExpiry_dec failure) as [H|H].
  - left. split; [exact H|]. rewrite (classify_expired _ H). reflexivity.
  - right. split; [exact H|]. rewrite (classify_other _ H). reflexivity.
Qed.

(** C6 fails as stated: the delegate does not classify by the reason of
    the failure.  An expiry failure whose message reads "Token Expired"
    becomes [INVALID_TOKEN], and an audience failure whose message holds
    "unexpired" becomes [TOKEN_EXPIRED]; so no reading of "indicates
    expiry" that gets either of the two right makes the statement true. *)
Lemma expiry_not_decided_by_reason :
  outcome (verifyToken (rejecting capitalExpiredFailure) "token" testVerifyOptions
             (decorateRequest emptyRequest))
  = inl (ThrowAuth (newAuthError INVALID_TOKEN "Invalid or malformed token" None)) /\
  outcome (verifyToken (rejecting audienceFailure) "token" testVerifyOptions
             (decorateRequest emptyRequest))
  = inl (ThrowAuth (newAuthError TOKEN_EXPIRED "Token has expired" None)) /\
  ~ exists expiry : Thrown -> Prop,
      (expiry capitalExpiredFailure \/ ~ expiry audienceFailure) /\
      classifiesByReason expiry.
Proof.
  split; [reflexivity|]. split; [reflexivity|].
  intros (expiry & [Hcap | Haud] & Hclaim).
  - destruct (Hclaim (rejecting capitalExpiredFailure) "token" testVerifyOptions
                (decorateRequest emptyRequest) capitalExpiredFailure eq_refl)
      as [Hexp _].
    specialize (Hexp Hcap). vm_compute in Hexp. discriminate.
  - destruct (Hclaim (rejecting audienceFailure) "token" testVerifyOptions
                (decorateRequest emptyRequest) audienceFailure eq_refl)
      as [_ Hother].
    specialize (Hother Haud). vm_compute in Hother. discriminate.
Qed.

(** C10. The expiry decision looks at the thrown value only.  The result
    is [TOKEN_EXPIRED] if and only if the value is an [Error] whose message
    contains "expired" somewhere, so any [Error] with such a message is
    reported as expired whatever its actual cause; a thrown value that is
    not an [Error] is always [INVALID_TOKEN], whatever it holds. *)
Theorem expiry_decided_by_message (clerk : Oracle) (token : string)
    (options : TokenVerificationOptions) (st : State) (failure : Thrown) :
  clerk token options = inl failure ->
  (outcome (verifyToken clerk token options st)
   = inl (ThrowAuth (newAuthError TOKEN_EXPIRED "Token has expired" None))
   <-> instanceofError failure = true /\
       exists a b, thrownMessage failure = a +:+ "expired" +:+ b) /\
  (forall errName a b,
      failure = ThrowError errName (a +:+ "expired" +:+ b) ->
      outcome (verifyToken clerk token options st)
      = inl (ThrowAuth (newAuthError TOKEN_EXPIRED "Token has expired" None))) /\
  (forall v,
      failure = ThrowValue v ->
      outcome (verifyToken clerk token options st)
      = inl (ThrowAuth (newAuthError INVALID_TOKEN "Invalid or malformed token" None))).
Proof.
  intros Hfail. rewrite verifyToken_run, Hfail. unfold outcome. simpl.
  split; [|split].
  - split.
    + intros H. destruct (indicatesExpiry_dec failure) as [Hi|Hi]; [exact Hi|].
      rewrite (classify_other _ Hi) in H. discriminate.
    + intros H. rewrite (classify_expired failure H). reflexivity.
  - intros errName a b ->. rewrite classify_expired; [reflexivity|].
    split; [reflexivity|]. exists a, b. reflexivity.
  - intros v ->. reflexivity.
Qed.

Lemma expiry_decided_by_message_witness :
  outcome (verifyToken
             (rejecting (ThrowError "Error" "Invalid audience: unexpired-sessions"))
             "token" testVerifyOptions (decorateRequest emptyRequest))
  = inl (ThrowAuth (newAuthError TOKEN_EXPIRED "Token has expired" None)).
Proof.
  apply (proj1 (proj2 (expiry_decided_by_message
           (rejecting (ThrowError "Error" "Invalid audience: unexpired-sessions"))
           "token" testVerifyOptions (decorateRequest emptyRequest)
           (ThrowError "Error" "Invalid audience: unexpired-sessions") eq_refl))
         "Error" "Invalid audience: un" "-sessions").
  reflexivity.
Defined.

(** A thrown string that speaks of expiry is not an [Error]. *)
Example thrown_string_is_invalid_token :
  outcome (verifyToken (rejecting (ThrowValue (JStr "token expired")))
             "token" testVerifyOptions (decorateRequest emptyRequest))
  = inl (ThrowAuth (newAuthError INVALID_TOKEN "Invalid or malformed token" None)).
Proof. reflexivity. Qed.

(** C2, as amended. The delegate fills each organization field from its
    own claim, independently of the other two: a field is populated
    exactly when the claim of that name is a string, and then holds it.
    Hence the three fields of the record are null together or populated
    together exactly when the three claims of the claim set are. *)
Theorem org_fields_mirror_claims (clerk : Oracle) (token : string)
    (options : TokenVerificationOptions) (st : State) (payload : JwtPayload) :
  clerk token options = inr payload ->
  exists u,
    outcome (verifyToken clerk token options st) = inr u /\
    orgId u = stringOrNull (claims payload !! "org_id") /\
    orgRole u = stringOrNull (claims payload !! "org_role") /\
    orgSlug u = stringOrNull (claims payload !! "org_slug") /\
    (orgFieldsConsistent u <-> orgClaimsConsistent payload).
Proof.
  intros Hok. exists (mapClerkPayloadToUserContext payload).
  rewrite verifyToken_run, Hok. unfold outcome. simpl.
  repeat split; trivial.
Qed.

Lemma org_fields_mirror_claims_witness :
  exists u,
    outcome (verifyToken (accepting roleOnlyPayload) "token" testVerifyOptions
               (decorateRequest emptyRequest)) = inr u /\
    orgId u = stringOrNull (claims roleOnlyPayload !! "org_id") /\
    orgRole u = stringOrNull (claims roleOnlyPayload !! "org_role") /\
    orgSlug u = stringOrNull (claims roleOnlyPayload !! "org_slug") /\
    (orgFieldsConsistent u <-> orgClaimsConsistent roleOnlyPayload).
Proof.
  apply (org_fields_mirror_claims (accepting roleOnlyPayload) "token"
           testVerifyOptions (decorateRequest emptyRequest) roleOnlyPayload).
  reflexivity.
Defined.

(** C2 fails as stated: a claim set with a role and no organization gives
    a record whose role is set while its organization identifier is null. *)
Lemma org_role_without_org_id :
  exists u,
    outcome (verifyToken (accepting roleOnlyPayload) "token" testVerifyOptions
               (decorateRequest emptyRequest)) = inr u /\
    orgRole u = Some "admin" /\
    orgId u = None /\
    ~ orgFieldsConsistent u.
Proof.
  exists (mapClerkPayloadToUserContext roleOnlyPayload).
  split; [reflexivity|]. split; [reflexivity|]. split; [reflexivity|].
  intros [(_ & Hrole & _)|(Hid & _)].
  - vm_compute in Hrole. discriminate.
  - apply Hid. reflexivity.
Qed.

(** C3, as amended. The subject identifier of the record is the oracle's
    [sub] claim, unchanged; it is non-empty exactly when that claim is. *)
Theorem userId_is_sub_claim (clerk : Oracle) (token : string)
    (options : TokenVerificationOptions) (st : State) (payload : JwtPayload) :
  clerk token options = inr payload ->
  exists u,
    outcome (verifyToken clerk token options st) = inr u /\
    userId u = sub payload /\
    (userId u <> "" <-> sub payload <> "").
Proof.
  intros Hok. exists (mapClerkPayloadToUserContext payload).
  rewrite verifyToken_run, Hok. unfold outcome. simpl.
  repeat split; trivial.
Qed.

Lemma userId_is_sub_claim_witness :
  exists u,
    outcome (verifyToken (accepting emptyPayload) "token" testVerifyOptions
               (decorateRequest emptyRequest)) = inr u /\
    userId u = sub emptyPayload /\
    (userId u <> "" <-> sub emptyPayload <> "").
Proof.
  apply (userId_is_sub_claim (accepting emptyPayload) "token"
           testVerifyOptions (decorateRequest emptyRequest) emptyPayload).
  reflexivity.
Defined.

(** C3 fails as stated: the delegate accepts a claim set whose subject is
    the empty string and builds a record with an empty subject. *)
Lemma empty_subject_record :
  exists u,
    outcome (verifyToken (accepting emptySubjectPayload) "token" testVerifyOptions
               (decorateRequest emptyRequest)) = inr u /\
    userId u = "".
Proof.
  exists (mapClerkPayloadToUserContext emptySubjectPayload).
  split; reflexivity.
Qed.

(** ** The gate *)


(** C5. On a route that carries the public marker, with public-route
    recognition left on, the gate returns at once: the request (and with
    it the identity slot) and the trace are exactly as before, so it made
    no call to extraction, to the delegate, to the logger or to the
    failure observer. *)
Theorem public_route_bypass (clerk : Oracle) (options : AuthPluginOptions)
    (verifyOptions : TokenVerificationOptions) (st : State) :
  respectPublicRoutes options <> Some false ->
  routeOptions_config (request st) = Some {| public := Some true |} ->
  createAuthPreHandler clerk options verifyOptions st = (inr tt, st) /\
  emitted st (createAuthPreHandler clerk options verifyOptions st) [] /\
  user (request (final (createAuthPreHandler clerk options verifyOptions st)))
  = user (request st).
Proof.
  intros Hon Hpub.
  assert (E : createAuthPreHandler clerk options verifyOptions st = (inr tt, st)).
  { unfold createAuthPreHandler. run_handler. rewrite Hpub. simpl.
    destruct (respectPublicRoutes options) as [[|]|]; simpl;
      try reflexivity. congruence. }
  rewrite E. unfold emitted, final. simpl.
  rewrite app_nil_r. auto.
Qed.

Lemma public_route_bypass_witness :
  let st := decorateRequest
              (withRouteConfig (withAuthorization emptyRequest (Some "Bearer abc"))
                 (Some {| public := Some true |})) in
  createAuthPreHandler (accepting emptyPayload) defaultOptions testVerifyOptions st
  = (inr tt, st).
Proof.
  intros st.
  apply (public_route_bypass (accepting emptyPayload) defaultOptions
           testVerifyOptions st).
  - discriminate.
  - reflexivity.
Defined.




(** ** The package's own test cases, replayed on the model *)

Example extracts_token_from_bearer_header :
  extractToken (withAuthorization emptyRequest (Some "Bearer my-jwt-token"))
  = Some "my-jwt-token".
Proof. reflexivity. Qed.

Example no_token_for_basic_authorization :
  extractToken (withAuthorization emptyRequest (Some "Basic dXNlcjpwYXNz")) = None.
Proof. reflexivity. Qed.

Example no_token_for_bearer_without_space :
  extractToken (withAuthorization emptyRequest (Some "Bearertoken-without-space"))
  = None.
Proof. reflexivity. Qed.

Example empty_token_for_empty_bearer :
  extractToken emptyBearerRequest = Some "".
Proof. reflexivity. Qed.

Example header_preferred_over_cookie :
  extractToken
    (withCookies (withAuthorization emptyRequest (Some "Bearer header-token"))
       (Some {[ "__session" := "cookie-token" ]}))
  = Some "header-token".
Proof. reflexivity. Qed.

Example no_token_without_session_cookie :
  extractToken (withCookies emptyRequest (Some {[ "other_cookie" := "value" ]}))
  = None.
Proof. reflexivity. Qed.

(** No credential on a protected route: 401 with the standard body. *)
Example missing_credential_end_to_end :
  match createAuthPreHandler (accepting emptyPayload) defaultOptions
          testVerifyOptions (decorateRequest emptyRequest) with
  | (inl error, _) =>
      authErrorHandler error {| reply_status := 200; reply_payload := None |}
  | (inr _, _) => inl (ThrowValue JNull)
  end
  = inr {| reply_status := 401;
           reply_payload :=
             Some (JObj {[ "error" :=
                             JObj (<[ "code" := JStr "UNAUTHORIZED" ]>
                                     {[ "message" := JStr "Authentication required" ]}) ]}) |}.
Proof. reflexivity. Qed.

(** A credential the oracle accepts: the mapped record is attached. *)
Example accepted_credential_attaches_identity :
  let r := createAuthPreHandler (accepting roleOnlyPayload) defaultOptions
             testVerifyOptions
             (decorateRequest (withAuthorization emptyRequest (Some "Bearer valid-token"))) in
  outcome r = inr tt /\
  user (request (final r)) = Some (mapClerkPayloadToUserContext roleOnlyPayload).
Proof. split; reflexivity. Qed.

Example role_guard_message :
  outcome (requireRole "admin"
             {| request := withUser emptyRequest (Some createMockUser); trace := [] |})
  = inl (ThrowAuth (newAuthError FORBIDDEN "Role 'admin' required" None)).
Proof. reflexivity. Qed.

Example org_role_guard_message :
  outcome (requireOrgRole "admin"
             {| request :=
                  withUser emptyRequest
                    (Some (mapClerkPayloadToUserContext
                             {| sub := "user_123";
                                sid := Some "sess_123";
                                claims := <[ "org_id" := JStr "org_123" ]>
                                            {[ "org_role" := JStr "member" ]} |}));
                trace := [] |})
  = inl (ThrowAuth (newAuthError FORBIDDEN "Organization role 'admin' required" None)).
Proof. reflexivity. Qed.

Example org_membership_guard_rejects_without_org :
  outcome (requireOrgMembership
             {| request := withUser emptyRequest (Some createMockUser); trace := [] |})
  = inl (ThrowAuth (newAuthError FORBIDDEN "Organization membership required" None)).
Proof. reflexivity. Qed.

Example getUser_without_identity :
  outcome (getUser (decorateRequest emptyRequest))
  = inl (ThrowAuth (newAuthError UNAUTHORIZED "Authentication required" None)).
Proof. reflexivity. Qed.

Example registration_needs_a_secret :
  authPluginImpl
    {| opt_secretKey := None;
       opt_authorizedParties := None;
       opt_jwtKey := None;
       respectPublicRoutes := None;
       logFailures := None;
       onAuthFailure := None |}
    None
  = inl (ThrowError "Error"
           "CLERK_SECRET_KEY is required. Set it via options.secretKey or CLERK_SECRET_KEY environment variable.").
Proof. reflexivity. Qed.

(** * Further properties of the code *)

(** ** The gate, path by path *)

Lemma logAuthFailure_full (error : AuthError) (options : AuthPluginOptions) (st : State) :
  logAuthFailure error options st =
  (match onAuthFailure options with
   | Some observer =>
       match observer error (request st) with
       | Some t => inl t
       | None => inr tt
       end
   | None => inr tt
   end,
   {| request := request st;
      trace := trace st ++ reportEvents options error (request st) |}).
Proof.
  destruct st as [req tr].
  unfold logAuthFailure, reportEvents. run_handler.
  destruct (notFalse (logFailures options)); simpl;
    destruct (onAuthFailure options) as [observer|]; simpl;
    try destruct (observer error req); simpl;
    rewrite <- ?app_assoc, ?app_nil_r; reflexivity.
Qed.

(** Reporting followed by the throw of the reported error. *)
Lemma report_then_throw (error : AuthError) (options : AuthPluginOptions) (st : State) :
  (run! logAuthFailure error options in throw (ThrowAuth error) : M unit) st =
  (inl (thrownAfterReport options error (request st)),
   {| request := request st;
      trace := trace st ++ reportEvents options error (request st) |}).
Proof.
  unfold bind. rewrite logAuthFailure_full. unfold thrownAfterReport, throw.
  destruct (onAuthFailure options) as [observer|]; [|reflexivity].
  destruct (observer error (request st)); reflexivity.
Qed.

Lemma gate_run_bypass (clerk : Oracle) (options : AuthPluginOptions)
    (verifyOptions : TokenVerificationOptions) (st : State) :
  publicBypass options (request st) = true ->
  createAuthPreHandler clerk options verifyOptions st = (inr tt, st).
Proof.
  unfold publicBypass, createAuthPreHandler. intros H.
  unfold bind at 1. unfold getRequest at 1. rewrite H. reflexivity.
Qed.

Lemma gate_run_missing (clerk : Oracle) (options : AuthPluginOptions)
    (verifyOptions : TokenVerificationOptions) (st : State) :
  publicBypass options (request st) = false ->
  extractToken (request st) = None \/ extractToken (request st) = Some "" ->
  createAuthPreHandler clerk options verifyOptions st =
  (inl (thrownAfterReport options
          (newAuthError UNAUTHORIZED "Authentication required" None) (request st)),
   {| request := request st;
      trace := trace st ++ CallExtractToken ::
                 reportEvents options
                   (newAuthError UNAUTHORIZED "Authentication required" None)
                   (request st) |}).
Proof.
  unfold publicBypass, createAuthPreHandler. intros Hpub Htok.
  unfold bind at 1. unfold getRequest at 1. rewrite Hpub.
  unfold bind at 1. unfold emit at 1. cbv beta iota.
  assert (E : forall st1 : State,
             match extractToken (request st) with
             | Some token =>
                 if negb (JsString.truthy token)
                 then (run! logAuthFailure
                              (newAuthError UNAUTHORIZED "Authentication required" None)
                              options
                       in throw (ThrowAuth
                                   (newAuthError UNAUTHORIZED "Authentication required" None)))
                 else
                   tryCatch
                     (run! emit (CallVerifyToken token)
                      in let! u := verifyToken clerk token verifyOptions in setUser u)
                     (fun error =>
                        run! match error with
                             | ThrowAuth e => logAuthFailure e options
                             | _ => ret tt
                             end
                        in throw error)
             | None =>
                 (run! logAuthFailure
                         (newAuthError UNAUTHORIZED "Authentication required" None)
                         options
                  in throw (ThrowAuth
                              (newAuthError UNAUTHORIZED "Authentication required" None)))
             end st1
             = (run! logAuthFailure
                       (newAuthError UNAUTHORIZED "Authentication required" None)
                       options
                in throw (ThrowAuth
                            (newAuthError UNAUTHORIZED "Authentication required" None)) : M unit)
                 st1).
  { intros st1. destruct Htok as [-> | ->]; reflexivity. }
  rewrite E, report_then_throw. simpl. rewrite <- app_assoc. reflexivity.
Qed.

Lemma gate_run_accepted (clerk : Oracle) (options : AuthPluginOptions)
    (verifyOptions : TokenVerificationOptions) (st : State)
    (token : string) (payload : JwtPayload) :
  publicBypass options (request st) = false ->
  extractToken (request st) = Some token ->
  token <> "" ->
  clerk token verifyOptions = inr payload ->
  createAuthPreHandler clerk options verifyOptions st =
  (inr tt,
   {| request := withUser (request st) (Some (mapClerkPayloadToUserContext payload));
      trace := trace st ++ [CallExtractToken; CallVerifyToken token;
                            CallClerkVerifyToken token verifyOptions] |}).
Proof.
  unfold publicBypass, createAuthPreHandler. intros Hpub Htok Hne Hok.
  apply truthy_spec in Hne.
  unfold bind at 1. unfold getRequest at 1. rewrite Hpub, Htok, Hne.
  change (negb true) with false. cbv iota.
  unfold bind at 1. unfold emit at 1. cbv beta iota.
  unfold tryCatch, bind at 1. unfold emit at 1. cbv beta iota.
  unfold bind at 1. rewrite verifyToken_run, Hok. unfold setUser. simpl.
  rewrite <- !app_assoc. reflexivity.
Qed.

Lemma gate_run_rejected (clerk : Oracle) (options : AuthPluginOptions)
    (verifyOptions : TokenVerificationOptions) (st : State)
    (token : string) (failure : Thrown) :
  publicBypass options (request st) = false ->
  extractToken (request st) = Some token ->
  token <> "" ->
  clerk token verifyOptions = inl failure ->
  createAuthPreHandler clerk options verifyOptions st =
  (inl (thrownAfterReport options (classify failure) (request st)),
   {| request := request st;
      trace := trace st ++ [CallExtractToken; CallVerifyToken token;
                            CallClerkVerifyToken token verifyOptions]
                 ++ reportEvents options (classify failure) (request st) |}).
Proof.
  unfold publicBypass, createAuthPreHandler. intros Hpub Htok Hne Hfail.
  apply truthy_spec in Hne.
  unfold bind at 1. unfold getRequest at 1. rewrite Hpub, Htok, Hne.
  change (negb true) with false. cbv iota.
  unfold bind at 1. unfold emit at 1. cbv beta iota.
  unfold tryCatch, bind at 1. unfold emit at 1. cbv beta iota.
  unfold bind at 1. rewrite verifyToken_run, Hfail.
  cbv beta iota. rewrite report_then_throw. simpl.
  rewrite <- !app_assoc. reflexivity.
Qed.

(** The four paths are all there is. *)
Lemma gate_cases (clerk : Oracle) (options : AuthPluginOptions)
    (verifyOptions : TokenVerificationOptions) (st : State) :
  publicBypass options (request st) = true \/
  (publicBypass options (request st) = false /\
   (extractToken (request st) = None \/ extractToken (request st) = Some "")) \/
  (publicBypass options (request st) = false /\
   exists token,
     extractToken (request st) = Some token /\ token <> "" /\
     ((exists payload, clerk token verifyOptions = inr payload) \/
      (exists failure, clerk token verifyOptions = inl failure))).
Proof.
  destruct (publicBypass options (request st)); [left; reflexivity|].
  right. destruct (extractToken (request st)) as [[|c token]|].
  - left. auto.
  - right. split; [reflexivity|]. exists (String c token).
    split; [reflexivity|]. split; [discriminate|].
    destruct (clerk (String c token) verifyOptions) as [failure|payload]; eauto.
  - left. auto.
Qed.

Lemma thrownAfterReport_quiet (options : AuthPluginOptions) (error : AuthError)
    (r : FastifyRequest) :
  observerReturns options error r ->
  thrownAfterReport options error r = ThrowAuth error.
Proof.
  unfold observerReturns, thrownAfterReport.
  destruct (onAuthFailure options) as [observer|]; [|reflexivity].
  intros ->. reflexivity.
Qed.

Lemma observerNeverThrows_returns (options : AuthPluginOptions) (error : AuthError)
    (r : FastifyRequest) :
  observerNeverThrows options -> observerReturns options error r.
Proof.
  unfold observerNeverThrows, observerReturns.
  destruct (onAuthFailure options); auto.
Qed.

Lemma classify_cases (failure : Thrown) :
  classify failure = newAuthError TOKEN_EXPIRED "Token has expired" None \/
  classify failure = newAuthError INVALID_TOKEN "Invalid or malformed token" None.
Proof.
  unfold classify.
  destruct (instanceofError failure && JsString.includes (thrownMessage failure) "expired");
    auto.
Qed.

Lemma reportEvents_no_oracle (options : AuthPluginOptions) (error : AuthError)
    (r : FastifyRequest) :
  List.filter isOracleCall (reportEvents options error r) = [].
Proof.
  unfold reportEvents.
  destruct (notFalse (logFailures options)), (onAuthFailure options); reflexivity.
Qed.

Lemma reportEvents_no_log (options : AuthPluginOptions) (error : AuthError)
    (r : FastifyRequest) :
  logFailures options = Some false ->
  Forall (fun e => isLogWarn e = false) (reportEvents options error r).
Proof.
  unfold reportEvents. intros ->. simpl.
  destruct (onAuthFailure options); repeat constructor.
Qed.

Lemma reportEvents_no_observer (options : AuthPluginOptions) (error : AuthError)
    (r : FastifyRequest) :
  onAuthFailure options = None ->
  Forall (fun e => isObserverCall e = false) (reportEvents options error r).
Proof.
  unfold reportEvents. intros ->.
  destruct (notFalse (logFailures options)); repeat constructor.
Qed.

(** X1. A request that carries no credential (no bearer header and no
    session cookie, or an empty one) on a route that is not let through is
    rejected with [UNAUTHORIZED] "Authentication required"; the request is
    untouched and the gate made exactly these calls: extraction, then the
    report of the failure.  The delegate is not called. *)
Theorem gate_rejects_missing_credential (clerk : Oracle) (options : AuthPluginOptions)
    (verifyOptions : TokenVerificationOptions) (st : State) :
  publicBypass options (request st) = false ->
  extractToken (request st) = None \/ extractToken (request st) = Some "" ->
  observerReturns options
    (newAuthError UNAUTHORIZED "Authentication required" None) (request st) ->
  createAuthPreHandler clerk options verifyOptions st =
  (inl (ThrowAuth (newAuthError UNAUTHORIZED "Authentication required" None)),
   {| request := request st;
      trace := trace st ++ CallExtractToken ::
                 reportEvents options
                   (newAuthError UNAUTHORIZED "Authentication required" None)
                   (request st) |}).
Proof.
  intros Hpub Htok Hobs.
  rewrite (gate_run_missing clerk options verifyOptions st Hpub Htok).
  rewrite (thrownAfterReport_quiet _ _ _ Hobs). reflexivity.
Qed.

Lemma gate_rejects_missing_credential_witness :
  createAuthPreHandler (accepting emptyPayload) defaultOptions testVerifyOptions
    (decorateRequest emptyRequest) =
  (inl (ThrowAuth (newAuthError UNAUTHORIZED "Authentication required" None)),
   {| request := emptyRequest;
      trace := [CallExtractToken;
                CallLogWarn UNAUTHORIZED "Authentication required" "GET" "/"
                  "127.0.0.1" None "Auth failure: UNAUTHORIZED"] |}).
Proof.
  apply (gate_rejects_missing_credential (accepting emptyPayload) defaultOptions
           testVerifyOptions (decorateRequest emptyRequest)).
  - reflexivity.
  - left. reflexivity.
  - exact I.
Defined.

(** X2. When the oracle accepts the extracted credential the gate returns
    normally with the mapped record in the identity slot; it called
    extraction, the delegate and the oracle once each, the oracle with the
    credential verbatim and the gate's verification options, and neither
    the logger nor the failure observer. *)
Theorem gate_attaches_identity (clerk : Oracle) (options : AuthPluginOptions)
    (verifyOptions : TokenVerificationOptions) (st : State)
    (token : string) (payload : JwtPayload) :
  publicBypass options (request st) = false ->
  extractToken (request st) = Some token ->
  token <> "" ->
  clerk token verifyOptions = inr payload ->
  createAuthPreHandler clerk options verifyOptions st =
  (inr tt,
   {| request := withUser (request st) (Some (mapClerkPayloadToUserContext payload));
      trace := trace st ++ [CallExtractToken; CallVerifyToken token;
                            CallClerkVerifyToken token verifyOptions] |}).
Proof.
  intros Hpub Htok Hne Hok.
  exact (gate_run_accepted clerk options verifyOptions st token payload Hpub Htok Hne Hok).
Qed.

Lemma gate_attaches_identity_witness :
  createAuthPreHandler (accepting emptyPayload) defaultOptions testVerifyOptions
    (decorateRequest (withAuthorization emptyRequest (Some "Bearer valid-token"))) =
  (inr tt,
   {| request :=
        withUser (withAuthorization emptyRequest (Some "Bearer valid-token"))
          (Some (mapClerkPayloadToUserContext emptyPayload));
      trace := [CallExtractToken; CallVerifyToken "valid-token";
                CallClerkVerifyToken "valid-token" testVerifyOptions] |}).
Proof.
  apply (gate_attaches_identity (accepting emptyPayload) defaultOptions
           testVerifyOptions
           (decorateRequest (withAuthorization emptyRequest (Some "Bearer valid-token")))
           "valid-token" emptyPayload).
  - reflexivity.
  - reflexivity.
  - discriminate.
  - reflexivity.
Defined.



(** X4. The gate fails closed.  Whenever it returns normally, either the
    route was let through as public and nothing changed, or the request
    carried a non-empty credential that the oracle accepted and the record
    mapped from the oracle's claim set is now in the identity slot. *)
Theorem gate_fail_closed (clerk : Oracle) (options : AuthPluginOptions)
    (verifyOptions : TokenVerificationOptions) (st : State) :
  outcome (createAuthPreHandler clerk options verifyOptions st) = inr tt ->
  (publicBypass options (request st) = true /\
   final (createAuthPreHandler clerk options verifyOptions st) = st) \/
  (publicBypass options (request st) = false /\
   exists token payload,
     extractToken (request st) = Some token /\
     token <> "" /\
     clerk token verifyOptions = inr payload /\
     user (request (final (createAuthPreHandler clerk options verifyOptions st)))
     = Some (mapClerkPayloadToUserContext payload)).
Proof.
  intros Hok.
  destruct (gate_cases clerk options verifyOptions st)
    as [Hpub | [[Hpub Htok] | [Hpub (token & Htok & Hne & [[payload Hp] | [failure Hf]])]]].
  - left. split; [exact Hpub|].
    rewrite (gate_run_bypass _ _ _ _ Hpub). reflexivity.
  - rewrite (gate_run_missing _ _ _ _ Hpub Htok) in Hok. discriminate.
  - right. split; [exact Hpub|]. exists token, payload.
    rewrite (gate_run_accepted _ _ _ _ _ _ Hpub Htok Hne Hp).
    repeat split; auto.
  - rewrite (gate_run_rejected _ _ _ _ _ _ Hpub Htok Hne Hf) in Hok. discriminate.
Qed.

Lemma gate_fail_closed_witness :
  (publicBypass defaultOptions
     (request (decorateRequest (withAuthorization emptyRequest (Some "Bearer valid-token"))))
   = true /\
   final (createAuthPreHandler (accepting emptyPayload) defaultOptions testVerifyOptions
            (decorateRequest (withAuthorization emptyRequest (Some "Bearer valid-token"))))
   = decorateRequest (withAuthorization emptyRequest (Some "Bearer valid-token"))) \/
  (publicBypass defaultOptions
     (request (decorateRequest (withAuthorization emptyRequest (Some "Bearer valid-token"))))
   = false /\
   exists token payload,
     extractToken
       (request (decorateRequest (withAuthorization emptyRequest (Some "Bearer valid-token"))))
     = Some token /\
     token <> "" /\
     accepting emptyPayload token testVerifyOptions = inr payload /\
     user (request (final (createAuthPreHandler (accepting emptyPayload) defaultOptions
                             testVerifyOptions
                             (decorateRequest
                                (withAuthorization emptyRequest (Some "Bearer valid-token"))))))
     = Some (mapClerkPayloadToUserContext payload)).
Proof.
  apply (gate_fail_closed (accepting emptyPayload) defaultOptions testVerifyOptions
           (decorateRequest (withAuthorization emptyRequest (Some "Bearer valid-token")))).
  reflexivity.
Defined.

(** X5. A gate that throws has attached nothing, whatever it throws (its
    own auth error, or what a failure observer threw while the error was
    being reported): the request is exactly as it was before the gate
    ran. *)
Theorem gate_failure_keeps_request (clerk : Oracle) (options : AuthPluginOptions)
    (verifyOptions : TokenVerificationOptions) (st : State) (t : Thrown) :
  outcome (createAuthPreHandler clerk options verifyOptions st) = inl t ->
  request (final (createAuthPreHandler clerk options verifyOptions st)) = request st.
Proof.
  intros Hfail.
  destruct (gate_cases clerk options verifyOptions st)
    as [Hpub | [[Hpub Htok] | [Hpub (token & Htok & Hne & [[payload Hp] | [failure Hf]])]]].
  - rewrite (gate_run_bypass _ _ _ _ Hpub) in Hfail. discriminate.
  - rewrite (gate_run_missing _ _ _ _ Hpub Htok). reflexivity.
  - rewrite (gate_run_accepted _ _ _ _ _ _ Hpub Htok Hne Hp) in Hfail. discriminate.
  - rewrite (gate_run_rejected _ _ _ _ _ _ Hpub Htok Hne Hf). reflexivity.
Qed.

Lemma gate_failure_keeps_request_witness :
  request (final (createAuthPreHandler (rejecting (ThrowError "Error" "Invalid token"))
                    defaultOptions testVerifyOptions
                    (decorateRequest
                       (withAuthorization emptyRequest (Some "Bearer invalid-token")))))
  = request (decorateRequest (withAuthorization emptyRequest (Some "Bearer invalid-token"))).
Proof.
  apply (gate_failure_keeps_request (rejecting (ThrowError "Error" "Invalid token"))
           defaultOptions testVerifyOptions
           (decorateRequest (withAuthorization emptyRequest (Some "Bearer invalid-token")))
           (ThrowAuth (newAuthError INVALID_TOKEN "Invalid or malformed token" None))).
  reflexivity.
Defined.

(** X6. One verification attempt per request: among the calls the gate
    makes there is at most one call to the oracle, and that call carries
    the credential extracted from the request, verbatim and non-empty,
    with the gate's verification options. *)
Theorem gate_calls_oracle_at_most_once (clerk : Oracle) (options : AuthPluginOptions)
    (verifyOptions : TokenVerificationOptions) (st : State) :
  exists evs,
    emitted st (createAuthPreHandler clerk options verifyOptions st) evs /\
    length (List.filter isOracleCall evs) <= 1 /\
    forall e, In e (List.filter isOracleCall evs) ->
      exists token,
        extractToken (request st) = Some token /\ token <> "" /\
        e = CallClerkVerifyToken token verifyOptions.
Proof.
  unfold emitted, final.
  destruct (gate_cases clerk options verifyOptions st)
    as [Hpub | [[Hpub Htok] | [Hpub (token & Htok & Hne & [[payload Hp] | [failure Hf]])]]].
  - rewrite (gate_run_bypass _ _ _ _ Hpub). exists []. simpl.
    rewrite app_nil_r. split; [reflexivity|]. split; [lia|]. intros e [].
  - rewrite (gate_run_missing _ _ _ _ Hpub Htok). eexists. simpl.
    split; [reflexivity|]. simpl. rewrite reportEvents_no_oracle. simpl.
    split; [lia|]. intros e [].
  - rewrite (gate_run_accepted _ _ _ _ _ _ Hpub Htok Hne Hp). eexists. simpl.
    split; [reflexivity|]. simpl. split; [lia|].
    intros e [<-|[]]. exists token. auto.
  - rewrite (gate_run_rejected _ _ _ _ _ _ Hpub Htok Hne Hf). eexists. simpl.
    split; [reflexivity|]. simpl. rewrite reportEvents_no_oracle. simpl.
    split; [lia|]. intros e [<-|[]]. exists token. auto.
Qed.

(** X7. The failure observer is not shielded: when it throws while a
    missing credential or a rejected credential is being reported, what it
    threw leaves the gate in place of the auth error; the identity slot is
    still untouched. *)
Theorem observer_exception_replaces_failure (clerk : Oracle) (options : AuthPluginOptions)
    (verifyOptions : TokenVerificationOptions) (st : State)
    (observer : AuthError -> FastifyRequest -> option Thrown) (t : Thrown) :
  publicBypass options (request st) = false ->
  onAuthFailure options = Some observer ->
  (forall error, observer error (request st) = Some t) ->
  (forall token payload,
      extractToken (request st) = Some token -> token <> "" ->
      clerk token verifyOptions <> inr payload) ->
  outcome (createAuthPreHandler clerk options verifyOptions st) = inl t /\
  request (final (createAuthPreHandler clerk options verifyOptions st)) = request st.
Proof.
  intros Hpub Hobs Hthrows Hrej.
  assert (Ht : forall error, thrownAfterReport options error (request st) = t).
  { intros error. unfold thrownAfterReport. rewrite Hobs, Hthrows. reflexivity. }
  destruct (gate_cases clerk options verifyOptions st)
    as [Hpub' | [[_ Htok] | [_ (token & Htok & Hne & [[payload Hp] | [failure Hf]])]]].
  - congruence.
  - rewrite (gate_run_missing _ _ _ _ Hpub Htok), Ht. split; reflexivity.
  - exfalso. exact (Hrej token payload Htok Hne Hp).
  - rewrite (gate_run_rejected _ _ _ _ _ _ Hpub Htok Hne Hf), Ht. split; reflexivity.
Qed.

Lemma observer_exception_replaces_failure_witness :
  outcome (createAuthPreHandler (rejecting (ThrowError "Error" "Invalid token"))
             {| opt_secretKey := None;
                opt_authorizedParties := None;
                opt_jwtKey := None;
                respectPublicRoutes := None;
                logFailures := None;
                onAuthFailure := Some (fun _ _ => Some (ThrowError "Error" "metrics down")) |}
             testVerifyOptions (decorateRequest emptyRequest))
  = inl (ThrowError "Error" "metrics down").
Proof.
  apply (observer_exception_replaces_failure
           (rejecting (ThrowError "Error" "Invalid token"))
           {| opt_secretKey := None;
              opt_authorizedParties := None;
              opt_jwtKey := None;
              respectPublicRoutes := None;
              logFailures := None;
              onAuthFailure := Some (fun _ _ => Some (ThrowError "Error" "metrics down")) |}
           testVerifyOptions (decorateRequest emptyRequest)
           (fun _ _ => Some (ThrowError "Error" "metrics down"))
           (ThrowError "Error" "metrics down")).
  - reflexivity.
  - reflexivity.
  - reflexivity.
  - discriminate.
Defined.

(** X8. With an observer that does not throw, everything the gate throws
    is an auth error of kind [UNAUTHORIZED], [INVALID_TOKEN] or
    [TOKEN_EXPIRED] with status 401, never [FORBIDDEN]; the error mapper
    answers it with status 401 and the error's response body. *)
Theorem gate_failures_are_401 (clerk : Oracle) (options : AuthPluginOptions)
    (verifyOptions : TokenVerificationOptions) (st : State)
    (reply : FastifyReply) (t : Thrown) :
  observerNeverThrows options ->
  outcome (createAuthPreHandler clerk options verifyOptions st) = inl t ->
  exists e,
    t = ThrowAuth e /\
    In (code e) [UNAUTHORIZED; INVALID_TOKEN; TOKEN_EXPIRED] /\
    statusCode e = Status401 /\
    authErrorHandler t reply
    = inr {| reply_status := 401; reply_payload := Some (toResponse e) |}.
Proof.
  intros Hobs Hfail.
  destruct (gate_cases clerk options verifyOptions st)
    as [Hpub | [[Hpub Htok] | [Hpub (token & Htok & Hne & [[payload Hp] | [failure Hf]])]]].
  - rewrite (gate_run_bypass _ _ _ _ Hpub) in Hfail. discriminate.
  - rewrite (gate_run_missing _ _ _ _ Hpub Htok) in Hfail.
    rewrite thrownAfterReport_quiet in Hfail
      by (apply observerNeverThrows_returns, Hobs).
    inversion Hfail; subst t. eexists. split; [reflexivity|]. simpl. auto.
  - rewrite (gate_run_accepted _ _ _ _ _ _ Hpub Htok Hne Hp) in Hfail. discriminate.
  - rewrite (gate_run_rejected _ _ _ _ _ _ Hpub Htok Hne Hf) in Hfail.
    rewrite thrownAfterReport_quiet in Hfail
      by (apply observerNeverThrows_returns, Hobs).
    inversion Hfail; subst t. exists (classify failure).
    split; [reflexivity|].
    destruct (classify_cases failure) as [-> | ->]; simpl; auto.
Qed.

Lemma gate_failures_are_401_witness :
  exists e,
    ThrowAuth (newAuthError TOKEN_EXPIRED "Token has expired" None) = ThrowAuth e /\
    In (code e) [UNAUTHORIZED; INVALID_TOKEN; TOKEN_EXPIRED] /\
    statusCode e = Status401 /\
    authErrorHandler (ThrowAuth (newAuthError TOKEN_EXPIRED "Token has expired" None))
      {| reply_status := 200; reply_payload := None |}
    = inr {| reply_status := 401; reply_payload := Some (toResponse e) |}.
Proof.
  apply (gate_failures_are_401 (rejecting (ThrowError "Error" "Token expired"))
           defaultOptions testVerifyOptions
           (decorateRequest (withAuthorization emptyRequest (Some "Bearer expired-token")))).
  - exact I.
  - reflexivity.
Defined.

(** X9. Reporting follows the configuration.  With [logFailures: false]
    the gate never calls the logger; without an [onAuthFailure] option it
    never calls an observer; and a request that passes the gate causes
    neither call, whatever the configuration. *)
Theorem reporting_respects_configuration (clerk : Oracle) (options : AuthPluginOptions)
    (verifyOptions : TokenVerificationOptions) (st : State) :
  exists evs,
    emitted st (createAuthPreHandler clerk options verifyOptions st) evs /\
    (logFailures options = Some false ->
     Forall (fun e => isLogWarn e = false) evs) /\
    (onAuthFailure options = None ->
     Forall (fun e => isObserverCall e = false) evs) /\
    (outcome (createAuthPreHandler clerk options verifyOptions st) = inr tt ->
     Forall (fun e => isLogWarn e = false /\ isObserverCall e = false) evs).
Proof.
  unfold emitted, final, outcome.
  destruct (gate_cases clerk options verifyOptions st)
    as [Hpub | [[Hpub Htok] | [Hpub (token & Htok & Hne & [[payload Hp] | [failure Hf]])]]].
  - rewrite (gate_run_bypass _ _ _ _ Hpub). exists []. simpl.
    rewrite app_nil_r. repeat split; constructor.
  - rewrite (gate_run_missing _ _ _ _ Hpub Htok). eexists. simpl.
    split; [reflexivity|]. split; [|split].
    + intros Hlog. constructor; [reflexivity|]. apply reportEvents_no_log, Hlog.
    + intros Hno. constructor; [reflexivity|]. apply reportEvents_no_observer, Hno.
    + discriminate.
  - rewrite (gate_run_accepted _ _ _ _ _ _ Hpub Htok Hne Hp). eexists. simpl.
    split; [reflexivity|]. repeat split; repeat constructor.
  - rewrite (gate_run_rejected _ _ _ _ _ _ Hpub Htok Hne Hf). eexists. simpl.
    split; [reflexivity|]. split; [|split].
    + intros Hlog. repeat (constructor; [reflexivity|]).
      apply reportEvents_no_log, Hlog.
    + intros Hno. repeat (constructor; [reflexivity|]).
      apply reportEvents_no_observer, Hno.
    + discriminate.
Qed.

Lemma reporting_respects_configuration_witness :
  exists evs,
    emitted (decorateRequest emptyRequest)
      (createAuthPreHandler (accepting emptyPayload)
         {| opt_secretKey := None;
            opt_authorizedParties := None;
            opt_jwtKey := None;
            respectPublicRoutes := None;
            logFailures := Some false;
            onAuthFailure := None |}
         testVerifyOptions (decorateRequest emptyRequest)) evs /\
    Forall (fun e => isLogWarn e = false) evs /\
    Forall (fun e => isObserverCall e = false) evs.
Proof.
  destruct (reporting_respects_configuration (accepting emptyPayload)
              {| opt_secretKey := None;
                 opt_authorizedParties := None;
                 opt_jwtKey := None;
                 respectPublicRoutes := None;
                 logFailures := Some false;
                 onAuthFailure := None |}
              testVerifyOptions (decorateRequest emptyRequest))
    as (evs & Hem & Hlog & Hobs & _).
  exists evs. split; [exact Hem|]. split.
  - apply Hlog. reflexivity.
  - apply Hobs. reflexivity.
Defined.

(** ** Registration *)

(** X10. Registration succeeds exactly when a non-empty secret can be
    resolved, the option taking precedence over the environment: an
    option that is the empty string is not replaced by the environment's
    value and makes registration fail.  On success the verification
    options carry that secret and forward the authorized parties and the
    key unchanged. *)
Theorem registration_resolves_secret (options : AuthPluginOptions) (env : option string)
    (verifyOptions : TokenVerificationOptions) :
  authPluginImpl options env = inr verifyOptions <->
  ((opt_secretKey options = Some (secretKey verifyOptions) \/
    (opt_secretKey options = None /\ env = Some (secretKey verifyOptions))) /\
   secretKey verifyOptions <> "" /\
   authorizedParties verifyOptions = opt_authorizedParties options /\
   jwtKey verifyOptions = opt_jwtKey options).
Proof.
  unfold authPluginImpl. split.
  - intros H.
    destruct (opt_secretKey options) as [k|] eqn:Ek.
    + destruct (JsString.truthy k) eqn:Et; [|discriminate].
      inversion H; subst verifyOptions. simpl.
      apply truthy_spec in Et. auto.
    + destruct env as [k|]; [|discriminate].
      destruct (JsString.truthy k) eqn:Et; [|discriminate].
      inversion H; subst verifyOptions. simpl.
      apply truthy_spec in Et. auto.
  - intros (Hsrc & Hne & Hap & Hjk). apply truthy_spec in Hne.
    destruct verifyOptions as [k ap jk]. simpl in *. subst ap jk.
    destruct Hsrc as [-> | [-> ->]]; rewrite Hne; reflexivity.
Qed.

Lemma registration_resolves_secret_witness :
  authPluginImpl defaultOptions (Some "sk_test_from_env") = inr testVerifyOptions.
Proof.
  apply (proj2 (registration_resolves_secret defaultOptions (Some "sk_test_from_env")
                  testVerifyOptions)).
  split; [left; reflexivity|].
  split; [discriminate|].
  split; reflexivity.
Defined.

(** Without a resolvable secret registration throws a plain [Error], not
    an auth error: it is a start-up fault. *)
Lemma registration_failure_is_not_auth_error (options : AuthPluginOptions)
    (env : option string) (t : Thrown) :
  authPluginImpl options env = inl t -> isAuthError t = false.
Proof.
  unfold authPluginImpl.
  destruct (opt_secretKey options) as [k|].
  - destruct (JsString.truthy k); [discriminate|].
    intros H. inversion H. reflexivity.
  - destruct env as [k|].
    + destruct (JsString.truthy k); [discriminate|].
      intros H. inversion H. reflexivity.
    + intros H. inversion H. reflexivity.
Qed.

Lemma gate_calls_oracle_at_most_once_witness :
  exists token,
    extractToken
      (request (decorateRequest (withAuthorization emptyRequest (Some "Bearer valid-token"))))
    = Some token /\
    token <> "" /\
    CallClerkVerifyToken "valid-token" testVerifyOptions
    = CallClerkVerifyToken token testVerifyOptions.
Proof.
  destruct (gate_calls_oracle_at_most_once (accepting emptyPayload) defaultOptions
              testVerifyOptions
              (decorateRequest (withAuthorization emptyRequest (Some "Bearer valid-token"))))
    as (evs & Hem & _ & Hall).
  unfold emitted in Hem. vm_compute in Hem. subst evs.
  apply Hall. simpl. left. reflexivity.
Defined.

(** ** Guards, beyond scope membership *)

Lemma in_stringArray (s : string) (l : list string) :
  In (JStr s) (map JStr l) <-> In s l.
Proof.
  rewrite in_map_iff. split.
  - intros (x & Hx & Hin). inversion Hx; subst. exact Hin.
  - intros Hin. exists s. auto.
Qed.

(** The role guard's predicate, when the roles entry has a permitted shape. *)
Lemma roles_check_total (u : UserContext) (role : string) :
  rolesAbsentOrList u ->
  match optIncludes "roles?.includes" (publicMetadata u !! "roles") role with
  | inl t => inl t
  | inr (Some b) => inr b
  | inr None => inr false
  end
  = (inr (existsb (isString role) (rolesList u)) : Thrown + bool).
Proof.
  unfold rolesAbsentOrList, rolesList.
  destruct (publicMetadata u !! "roles") as [[| | | | |]|]; simpl;
    intros H; try contradiction; reflexivity.
Qed.

(** X11. With an identity whose [roles] entry is a list or absent,
    [requireRole role] passes exactly when the list holds that role; when
    it does not, the guard fails with [FORBIDDEN] and the message
    [Role '<role>' required].  The state is left as it was. *)
Theorem requireRole_membership (role : string) (st : State) (u : UserContext) :
  user (request st) = Some u ->
  rolesAbsentOrList u ->
  (In (JStr role) (rolesList u) -> requireRole role st = (inr tt, st)) /\
  (~ In (JStr role) (rolesList u) ->
   requireRole role st
   = (inl (ThrowAuth (newAuthError FORBIDDEN ("Role '" +:+ role +:+ "' required") None)),
      st)).
Proof.
  intros Hu Hshape. unfold requireRole, requirePermission. run_handler.
  rewrite Hu, (roles_check_total u role Hshape).
  destruct (existsb (isString role) (rolesList u)) eqn:E.
  - apply includes_in_list in E. split; [reflexivity|]. intros H. contradiction.
  - split; [|reflexivity]. intros H. apply includes_in_list in H. congruence.
Qed.

Lemma requireRole_membership_witness :
  requireRole "admin"
    {| request := withUser emptyRequest (Some createMockUser); trace := [] |}
  = (inl (ThrowAuth (newAuthError FORBIDDEN "Role 'admin' required" None)),
     {| request := withUser emptyRequest (Some createMockUser); trace := [] |}).
Proof.
  apply (proj2 (requireRole_membership "admin"
                  {| request := withUser emptyRequest (Some createMockUser); trace := [] |}
                  createMockUser eq_refl I)).
  intros H. exact H.
Defined.

(** X12. With an identity whose [scopes] entry is a list or absent, a
    target scope that the list lacks makes [requireScopes] fail with
    [FORBIDDEN]; the message names all the targets, joined by ", ", not
    only the missing ones. *)
Theorem requireScopes_failure_message (targets : list string) (st : State)
    (u : UserContext) (s : string) :
  user (request st) = Some u ->
  scopesAbsentOrList u ->
  In s targets ->
  ~ In (JStr s) (scopesList u) ->
  requireScopes targets st
  = (inl (ThrowAuth (newAuthError FORBIDDEN
                       ("Scopes required: " +:+ JsString.join ", " targets) None)),
     st).
Proof.
  intros Hu Hshape Hin Hmiss. unfold requireScopes, requirePermission. run_handler.
  rewrite Hu, (scopes_check_total u targets Hshape).
  destruct (forallb (fun s0 => existsb (isString s0) (scopesList u)) targets) eqn:E;
    [|reflexivity].
  exfalso. apply Hmiss. rewrite forallb_forall in E.
  apply includes_in_list, E, Hin.
Qed.

Lemma requireScopes_failure_message_witness :
  let u := withPublicMetadata createMockUser {[ "scopes" := JArr [JStr "read"] ]} in
  let st := {| request := withUser emptyRequest (Some u); trace := [] |} in
  requireScopes ["read"; "write"] st
  = (inl (ThrowAuth (newAuthError FORBIDDEN "Scopes required: read, write" None)), st).
Proof.
  intros u st.
  apply (requireScopes_failure_message ["read"; "write"] st u "write").
  - reflexivity.
  - exact I.
  - simpl. auto.
  - vm_compute. intros [H|[]]. discriminate.
Defined.

(** X13. The organization guards.  [requireOrgMembership] passes exactly
    when the organization identifier is not null.  [requireOrgRole role]
    passes exactly when the organization role is that very string, so a
    null role matches nothing; otherwise it fails with [FORBIDDEN] and
    [Organization role '<role>' required]. *)
Theorem org_guards_exact (role : string) (st : State) (u : UserContext) :
  user (request st) = Some u ->
  (requireOrgMembership st = (inr tt, st) <-> orgId u <> None) /\
  (requireOrgRole role st = (inr tt, st) <-> orgRole u = Some role) /\
  (orgRole u <> Some role ->
   requireOrgRole role st
   = (inl (ThrowAuth (newAuthError FORBIDDEN
                        ("Organization role '" +:+ role +:+ "' required") None)),
      st)) /\
  (orgId u = None ->
   requireOrgMembership st
   = (inl (ThrowAuth (newAuthError FORBIDDEN "Organization membership required" None)),
      st)).
Proof.
  intros Hu. unfold requireOrgMembership, requireOrgRole, requirePermission, total.
  run_handler. rewrite Hu.
  split; [|split; [|split]].
  - destruct (orgId u); split; intros H; try reflexivity; try discriminate.
    contradiction.
  - destruct (orgRole u) as [r|].
    + destruct (String.eqb r role) eqn:E.
      * apply String.eqb_eq in E. subst. split; reflexivity.
      * apply String.eqb_neq in E. split; [discriminate|]. congruence.
    + split; discriminate.
  - intros Hne. destruct (orgRole u) as [r|]; [|reflexivity].
    destruct (String.eqb r role) eqn:E; [|reflexivity].
    apply String.eqb_eq in E. subst. contradiction.
  - intros ->. reflexivity.
Qed.

Lemma org_guards_exact_witness :
  requireOrgRole "admin"
    {| request := withUser emptyRequest (Some createMockUser); trace := [] |}
  = (inl (ThrowAuth (newAuthError FORBIDDEN "Organization role 'admin' required" None)),
     {| request := withUser emptyRequest (Some createMockUser); trace := [] |}).
Proof.
  apply (proj1 (proj2 (proj2 (org_guards_exact "admin"
                                {| request := withUser emptyRequest (Some createMockUser);
                                   trace := [] |}
                                createMockUser eq_refl)))).
  discriminate.
Defined.

(** X14. For an identity whose organization fields are null together or
    populated together, passing [requireOrgRole] for some role implies
    passing [requireOrgMembership]. *)
Theorem org_role_implies_membership (role : string) (st : State) (u : UserContext) :
  user (request st) = Some u ->
  orgFieldsConsistent u ->
  requireOrgRole role st = (inr tt, st) ->
  requireOrgMembership st = (inr tt, st).
Proof.
  intros Hu Hcons. unfold requireOrgMembership, requireOrgRole, requirePermission, total.
  run_handler. rewrite Hu.
  destruct Hcons as [(_ & Hrole & _) | (Hid & _ & _)].
  - rewrite Hrole. discriminate.
  - destruct (orgId u); [|contradiction]. intros _. reflexivity.
Qed.

Lemma org_role_implies_membership_witness :
  let u := mapClerkPayloadToUserContext
             {| sub := "user_123";
                sid := Some "sess_123";
                claims := <[ "org_id" := JStr "org_123" ]>
                            (<[ "org_role" := JStr "admin" ]>
                               {[ "org_slug" := JStr "acme" ]}) |} in
  let st := {| request := withUser emptyRequest (Some u); trace := [] |} in
  requireOrgMembership st = (inr tt, st).
Proof.
  intros u st.
  apply (org_role_implies_membership "admin" st u).
  - reflexivity.
  - right. vm_compute. repeat split; discriminate.
  - reflexivity.
Defined.

(** X15. Guards and the retrieval helper have no effect on the request or
    the trace, whatever the check does (pass, fail or throw). *)
Theorem guards_leave_state (check : UserContext -> Thrown + bool)
    (errorMessage : option string) (st : State) :
  final (requirePermission check errorMessage st) = st /\
  final (getUser st) = st.
Proof.
  unfold requirePermission, getUser. run_handler.
  destruct (user (request st)) as [u|]; [|split; reflexivity].
  destruct (check u) as [t|[|]]; split; reflexivity.
Qed.

(** X16. A [scopes] or [roles] entry that is a boolean, a number or an
    object has no [includes]: the guard throws a [TypeError] (for scopes,
    as soon as there is a target to look for), which is not an auth error,
    and the error mapper throws it on instead of answering 403. *)
Theorem guard_type_error_on_unsearchable_entry (targets : list string) (role : string)
    (st : State) (u : UserContext) (reply : FastifyReply) :
  user (request st) = Some u ->
  (notSearchable (publicMetadata u !! "scopes") -> targets <> [] ->
   exists m,
     requireScopes targets st = (inl (ThrowError "TypeError" m), st) /\
     authErrorHandler (ThrowError "TypeError" m) reply = inl (ThrowError "TypeError" m)) /\
  (notSearchable (publicMetadata u !! "roles") ->
   exists m,
     requireRole role st = (inl (ThrowError "TypeError" m), st) /\
     authErrorHandler (ThrowError "TypeError" m) reply = inl (ThrowError "TypeError" m)).
Proof.
  intros Hu. split.
  - intros Hbad Hne. unfold requireScopes, requirePermission. run_handler.
    rewrite Hu. destruct targets as [|s rest]; [congruence|]. simpl.
    destruct (publicMetadata u !! "scopes") as [[| | | | |]|]; simpl in *;
      try contradiction; eexists; split; reflexivity.
  - intros Hbad. unfold requireRole, requirePermission. run_handler.
    rewrite Hu.
    destruct (publicMetadata u !! "roles") as [[| | | | |]|]; simpl in *;
      try contradiction; eexists; split; reflexivity.
Qed.

Lemma guard_type_error_on_unsearchable_entry_witness :
  let u := withPublicMetadata createMockUser {[ "scopes" := JNum 3 ]} in
  let st := {| request := withUser emptyRequest (Some u); trace := [] |} in
  exists m,
    requireScopes ["read"] st = (inl (ThrowError "TypeError" m), st) /\
    authErrorHandler (ThrowError "TypeError" m) {| reply_status := 200; reply_payload := None |}
    = inl (ThrowError "TypeError" m).
Proof.
  intros u st.
  apply (proj1 (guard_type_error_on_unsearchable_entry ["read"] "admin" st u
                  {| reply_status := 200; reply_payload := None |} eq_refl)).
  - exact I.
  - discriminate.
Defined.

Lemma every_includes_string (t : string) (targets : list string) :
  every
    (fun s =>
       match optIncludes "userScopes?.includes" (Some (JStr t)) s with
       | inl e => inl e
       | inr (Some b) => inr b
       | inr None => inr false
       end)
    targets
  = inr (forallb (fun s => JsString.includes t s) targets).
Proof.
  rewrite <- every_total. apply every_ext. intros s. reflexivity.
Qed.

(** X17. A [scopes] entry that is a single string is searched as text:
    the guard passes exactly when every target occurs somewhere in that
    string as a substring. *)
Theorem requireScopes_on_string_entry (targets : list string) (st : State)
    (u : UserContext) (t : string) :
  user (request st) = Some u ->
  publicMetadata u !! "scopes" = Some (JStr t) ->
  (requireScopes targets st = (inr tt, st) <->
   forall s, In s targets -> exists a b, t = a +:+ s +:+ b).
Proof.
  intros Hu Hentry. unfold requireScopes, requirePermission. run_handler.
  rewrite Hu, Hentry, every_includes_string.
  destruct (forallb (fun s => JsString.includes t s) targets) eqn:E.
  - split; [|reflexivity]. intros _ s Hs.
    rewrite forallb_forall in E. apply includes_spec, E, Hs.
  - split; [discriminate|]. intros Hall. exfalso.
    assert (forallb (fun s => JsString.includes t s) targets = true).
    { apply forallb_forall. intros s Hs. apply includes_spec, Hall, Hs. }
    congruence.
Qed.

Lemma requireScopes_on_string_entry_witness :
  let u := withPublicMetadata createMockUser {[ "scopes" := JStr "read:all write:own" ]} in
  let st := {| request := withUser emptyRequest (Some u); trace := [] |} in
  requireScopes ["read"; "write"] st = (inr tt, st).
Proof.
  intros u st.
  apply (proj2 (requireScopes_on_string_entry ["read"; "write"] st u
                  "read:all write:own" eq_refl eq_refl)).
  intros s [<-|[<-|[]]].
  - exists "", ":all write:own". reflexivity.
  - exists "read:all ", ":own". reflexivity.
Defined.

(** X18. Every failure of a guard built from a boolean predicate is an
    auth error, and the error mapper answers it: 401 and "Authentication
    required" when no identity is attached, 403 and the guard's message
    (by default "Insufficient permissions") when the predicate is false. *)
Theorem guard_failure_response (p : UserContext -> bool) (errorMessage : option string)
    (st : State) (reply : FastifyReply) (t : Thrown) :
  outcome (requirePermission (total p) errorMessage st) = inl t ->
  exists e,
    t = ThrowAuth e /\
    authErrorHandler t reply
    = inr {| reply_status :=
               match user (request st) with None => 401 | Some _ => 403 end;
             reply_payload := Some (toResponse e) |} /\
    code e = match user (request st) with None => UNAUTHORIZED | Some _ => FORBIDDEN end /\
    message e =
      match user (request st) with
      | None => "Authentication required"
      | Some _ =>
          match errorMessage with
          | Some m => m
          | None => "Insufficient permissions"
          end
      end.
Proof.
  unfold requirePermission, total. run_handler.
  destruct (user (request st)) as [u|].
  - destruct (p u); [discriminate|]. intros H. inversion H; subst t.
    eexists. repeat split.
  - intros H. inversion H; subst t. eexists. repeat split.
Qed.

Lemma guard_failure_response_witness :
  exists e,
    ThrowAuth (newAuthError FORBIDDEN "Insufficient permissions" None) = ThrowAuth e /\
    authErrorHandler (ThrowAuth (newAuthError FORBIDDEN "Insufficient permissions" None))
      {| reply_status := 200; reply_payload := None |}
    = inr {| reply_status := 403; reply_payload := Some (toResponse e) |} /\
    code e = FORBIDDEN /\
    message e = "Insufficient permissions".
Proof.
  apply (guard_failure_response (fun _ => false) None
           {| request := withUser emptyRequest (Some createMockUser); trace := [] |}
           {| reply_status := 200; reply_payload := None |}
           (ThrowAuth (newAuthError FORBIDDEN "Insufficient permissions" None))).
  reflexivity.
Defined.

(** ** The gate followed by a handler or a guard *)

(** X19. After the gate, the retrieval helper.  On a route that is not
    let through, if the gate returns normally then [getUser] returns the
    record mapped from the claim set the oracle gave for the extracted
    credential; on a route let through as public, with the identity slot
    empty, [getUser] fails with [UNAUTHORIZED]. *)
Theorem getUser_after_gate (clerk : Oracle) (options : AuthPluginOptions)
    (verifyOptions : TokenVerificationOptions) (st : State) :
  (publicBypass options (request st) = false ->
   outcome (createAuthPreHandler clerk options verifyOptions st) = inr tt ->
   exists token payload,
     extractToken (request st) = Some token /\
     clerk token verifyOptions = inr payload /\
     outcome ((run! createAuthPreHandler clerk options verifyOptions in getUser) st)
     = inr (mapClerkPayloadToUserContext payload)) /\
  (publicBypass options (request st) = true ->
   user (request st) = None ->
   outcome ((run! createAuthPreHandler clerk options verifyOptions in getUser) st)
   = inl (ThrowAuth (newAuthError UNAUTHORIZED "Authentication required" None))).
Proof.
  split.
  - intros Hpub Hok.
    destruct (gate_cases clerk options verifyOptions st)
      as [Hpub' | [[_ Htok] | [_ (token & Htok & Hne & [[payload Hp] | [failure Hf]])]]].
    + congruence.
    + rewrite (gate_run_missing _ _ _ _ Hpub Htok) in Hok. discriminate.
    + exists token, payload. split; [exact Htok|]. split; [exact Hp|].
      unfold bind. rewrite (gate_run_accepted _ _ _ _ _ _ Hpub Htok Hne Hp).
      reflexivity.
    + rewrite (gate_run_rejected _ _ _ _ _ _ Hpub Htok Hne Hf) in Hok. discriminate.
  - intros Hpub Hnone. unfold bind. rewrite (gate_run_bypass _ _ _ _ Hpub).
    unfold getUser. run_handler. rewrite Hnone. reflexivity.
Qed.

Lemma getUser_after_gate_witness :
  outcome ((run! createAuthPreHandler (accepting emptyPayload) defaultOptions
                   testVerifyOptions
            in getUser)
             (decorateRequest
                (withRouteConfig emptyRequest (Some {| public := Some true |}))))
  = inl (ThrowAuth (newAuthError UNAUTHORIZED "Authentication required" None)).
Proof.
  apply (proj2 (getUser_after_gate (accepting emptyPayload) defaultOptions
                  testVerifyOptions
                  (decorateRequest
                     (withRouteConfig emptyRequest (Some {| public := Some true |}))))).
  - reflexivity.
  - reflexivity.
Defined.

(** X20. From the claim set to the role guard.  When the oracle accepts
    the credential with a claim set whose [public_metadata] object has a
    [roles] array of strings, the gate followed by [requireRole role]
    passes exactly when [role] is one of them. *)
Theorem role_guard_after_gate (clerk : Oracle) (options : AuthPluginOptions)
    (verifyOptions : TokenVerificationOptions) (st : State)
    (token : string) (payload : JwtPayload) (meta : gmap string JsValue)
    (roles : list string) (role : string) :
  publicBypass options (request st) = false ->
  extractToken (request st) = Some token ->
  token <> "" ->
  clerk token verifyOptions = inr payload ->
  claims payload !! "public_metadata" = Some (JObj meta) ->
  meta !! "roles" = Some (stringArray roles) ->
  (outcome ((run! createAuthPreHandler clerk options verifyOptions in requireRole role) st)
   = inr tt
   <-> In role roles).
Proof.
  intros Hpub Htok Hne Hp Hmeta Hroles.
  unfold bind. rewrite (gate_run_accepted _ _ _ _ _ _ Hpub Htok Hne Hp).
  unfold requireRole, requirePermission. run_handler.
  rewrite Hmeta. simpl. rewrite Hroles. unfold stringArray. simpl.
  destruct (existsb (isString role) (map JStr roles)) eqn:E.
  - split; [|reflexivity]. intros _.
    apply in_stringArray, includes_in_list, E.
  - split; [discriminate|]. intros Hin.
    apply in_stringArray, includes_in_list in Hin. congruence.
Qed.

Lemma role_guard_after_gate_witness :
  let payload :=
    {| sub := "user_123";
       sid := Some "sess_456";
       claims := {[ "public_metadata" :=
                      JObj {[ "roles" := stringArray ["editor"; "admin"] ]} ]} |} in
  outcome ((run! createAuthPreHandler (accepting payload) defaultOptions testVerifyOptions
            in requireRole "admin")
             (decorateRequest (withAuthorization emptyRequest (Some "Bearer valid-token"))))
  = inr tt.
Proof.
  intros payload.
  apply (proj2 (role_guard_after_gate (accepting payload) defaultOptions testVerifyOptions
                  (decorateRequest
                     (withAuthorization emptyRequest (Some "Bearer valid-token")))
                  "valid-token" payload
                  {[ "roles" := stringArray ["editor"; "admin"] ]}
                  ["editor"; "admin"] "admin"
                  eq_refl eq_refl ltac:(discriminate) eq_refl eq_refl eq_refl)).
  simpl. auto.
Defined.

(** ** The delegate on its own *)

(** X21. A call to the delegate makes a single call to the oracle, with
    the credential verbatim and the caller's three options, whether the
    oracle accepts or rejects; the delegate itself never touches the
    request, so it attaches no identity. *)
Theorem verifyToken_single_attempt (clerk : Oracle) (token : string)
    (options : TokenVerificationOptions) (st : State) :
  final (verifyToken clerk token options st)
  = {| request := request st;
       trace := trace st ++
                  [CallClerkVerifyToken token
                     {| secretKey := secretKey options;
                        authorizedParties := authorizedParties options;
                        jwtKey := jwtKey options |}] |}.
Proof.
  rewrite verifyToken_run. destruct options. reflexivity.
Qed.

(** X22. What the mapping keeps.  The session identifier falls back to
    the empty string when the claim set has none; each display attribute
    is the claim of that name when it is a string and null otherwise; a
    metadata bag is the claim's object when the claim is an object and is
    empty when the claim is absent or null; the claim set itself is kept
    unchanged in [raw]. *)
Theorem mapping_preserves_claims (payload : JwtPayload) :
  let u := mapClerkPayloadToUserContext payload in
  (sessionId u = "" <-> sid payload = None \/ sid payload = Some "") /\
  (forall s, email u = Some s <-> claims payload !! "email" = Some (JStr s)) /\
  (forall s, firstName u = Some s <-> claims payload !! "first_name" = Some (JStr s)) /\
  (forall s, lastName u = Some s <-> claims payload !! "last_name" = Some (JStr s)) /\
  (forall s, imageUrl u = Some s <-> claims payload !! "image_url" = Some (JStr s)) /\
  (forall m, claims payload !! "public_metadata" = Some (JObj m) -> publicMetadata u = m) /\
  (claims payload !! "public_metadata" = None \/
   claims payload !! "public_metadata" = Some JNull -> publicMetadata u = ∅) /\
  (forall m, claims payload !! "private_metadata" = Some (JObj m) -> privateMetadata u = m) /\
  (claims payload !! "private_metadata" = None \/
   claims payload !! "private_metadata" = Some JNull -> privateMetadata u = ∅) /\
  raw u = payload.
Proof.
  assert (Hstr : forall (x : option JsValue) (s : string),
             stringOrNull x = Some s <-> x = Some (JStr s)).
  { intros x s. destruct x as [[| b | n | t | items | fields]|]; simpl;
      split; intros H; try discriminate; inversion H; reflexivity. }
  simpl. repeat split; try apply Hstr.
  - destruct (sid payload) as [s|]; intros H; [right; congruence|left; reflexivity].
  - intros [H|H]; rewrite H; reflexivity.
  - intros m ->. reflexivity.
  - intros [-> | ->]; reflexivity.
  - intros m ->. reflexivity.
  - intros [-> | ->]; reflexivity.
Qed.

Lemma mapping_preserves_claims_witness :
  publicMetadata
    (mapClerkPayloadToUserContext
       {| sub := "user_123";
          sid := None;
          claims := {[ "public_metadata" := JObj {[ "roles" := stringArray ["admin"] ]} ]} |})
  = {[ "roles" := stringArray ["admin"] ]}.
Proof.
  apply (proj1 (proj2 (proj2 (proj2 (proj2 (proj2
           (mapping_preserves_claims
              {| sub := "user_123";
                 sid := None;
                 claims := {[ "public_metadata" :=
                                JObj {[ "roles" := stringArray ["admin"] ]} ]} |}))))))).
  reflexivity.
Defined.

(** ** The test helpers *)

Lemma replace_unfold (s pat rep : string) :
  JsString.replace s pat rep =
  if JsString.startsWith s pat
  then rep +:+ JsString.slice s (String.length pat)
  else
    match s with
    | EmptyString => EmptyString
    | String c s' => String c (JsString.replace s' pat rep)
    end.
Proof. destruct s; reflexivity. Qed.

Lemma replace_prefix (pat r rep : string) :
  JsString.replace (pat +:+ r) pat rep = rep +:+ r.
Proof.
  rewrite replace_unfold, startsWith_app, slice_app. reflexivity.
Qed.

Lemma replace_absent (s pat rep : string) :
  JsString.includes s pat = false -> JsString.replace s pat rep = s.
Proof.
  induction s as [|c s IH]; simpl; intros H;
    apply orb_false_iff in H as [Hs Hrest]; rewrite Hs.
  - reflexivity.
  - rewrite (IH Hrest). reflexivity.
Qed.

(** X23. [createMockUserWithRoles] and the role guard agree: the mock
    user built from a list of roles passes [requireRole role] exactly when
    [role] is in the list. *)
Theorem mock_roles_round_trip (emptyRaw : JwtPayload) (roles : list string)
    (role : string) (st : State) :
  user (request st) = Some (createMockUserWithRoles emptyRaw roles) ->
  (requireRole role st = (inr tt, st) <-> In role roles).
Proof.
  intros Hu. unfold requireRole, requirePermission. run_handler.
  rewrite Hu. simpl. rewrite lookup_singleton_eq. unfold stringArray. simpl.
  destruct (existsb (isString role) (map JStr roles)) eqn:E.
  - split; [|reflexivity]. intros _. apply in_stringArray, includes_in_list, E.
  - split; [discriminate|]. intros Hin.
    apply in_stringArray, includes_in_list in Hin. congruence.
Qed.

Lemma mock_roles_round_trip_witness :
  let st := {| request := withUser emptyRequest
                            (Some (createMockUserWithRoles emptyPayload ["admin"; "user"]));
               trace := [] |} in
  requireRole "admin" st = (inr tt, st).
Proof.
  intros st.
  apply (proj2 (mock_roles_round_trip emptyPayload ["admin"; "user"] "admin" st eq_refl)).
  simpl. auto.
Defined.

(** X24. [createMockUserWithScopes] and the scope guard agree: the mock
    user built from a list of scopes passes [requireScopes targets]
    exactly when every target is in the list. *)
Theorem mock_scopes_round_trip (emptyRaw : JwtPayload) (scopes targets : list string)
    (st : State) :
  user (request st) = Some (createMockUserWithScopes emptyRaw scopes) ->
  (requireScopes targets st = (inr tt, st) <->
   forall s, In s targets -> In s scopes).
Proof.
  intros Hu.
  remember (createMockUserWithScopes emptyRaw scopes) as u eqn:Equ.
  assert (Hentry : publicMetadata u !! "scopes" = Some (JArr (map JStr scopes))).
  { subst u. simpl. apply lookup_singleton_eq. }
  assert (Hshape : scopesAbsentOrList u).
  { unfold scopesAbsentOrList. rewrite Hentry. exact I. }
  assert (Hlist : scopesList u = map JStr scopes).
  { unfold scopesList. rewrite Hentry. reflexivity. }
  unfold requireScopes, requirePermission, bind, getRequest, ret, throw.
  cbv beta iota. rewrite Hu. cbv beta iota.
  rewrite (scopes_check_total u targets Hshape), Hlist.
  destruct (forallb (fun s => existsb (isString s) (map JStr scopes)) targets) eqn:E.
  - split; [|reflexivity]. intros _ s Hs. rewrite forallb_forall in E.
    apply in_stringArray, includes_in_list, E, Hs.
  - split; [discriminate|]. intros Hall. exfalso.
    assert (forallb (fun s => existsb (isString s) (map JStr scopes)) targets = true).
    { apply forallb_forall. intros s Hs.
      apply includes_in_list, in_stringArray, Hall, Hs. }
    congruence.
Qed.

Lemma mock_scopes_round_trip_witness :
  let st := {| request := withUser emptyRequest
                            (Some (createMockUserWithScopes emptyPayload
                                     ["read"; "write"; "delete"]));
               trace := [] |} in
  requireScopes ["read"; "write"] st = (inr tt, st).
Proof.
  intros st.
  apply (proj2 (mock_scopes_round_trip emptyPayload ["read"; "write"; "delete"]
                  ["read"; "write"] st eq_refl)).
  intros s [<-|[<-|[]]]; simpl; auto.
Defined.

(** X25. [createMockOrgUser] builds a record with all three organization
    fields populated, so it passes [requireOrgMembership] and passes
    [requireOrgRole role] exactly for its own role.  A slug that is given
    is kept; without one the slug is the identifier with its first
    ["org_"] removed: the rest of the identifier when it starts with
    ["org_"], the identifier itself when ["org_"] does not occur in it. *)
Theorem mock_org_user (emptyRaw : JwtPayload) (oid orole : string)
    (oslug : option string) (role : string) (st : State) :
  let u := createMockOrgUser emptyRaw oid orole oslug in
  orgFieldsConsistent u /\
  (user (request st) = Some u ->
   requireOrgMembership st = (inr tt, st) /\
   (requireOrgRole role st = (inr tt, st) <-> role = orole)) /\
  (forall slug, oslug = Some slug -> orgSlug u = Some slug) /\
  (forall rest, oslug = None -> oid = "org_" +:+ rest -> orgSlug u = Some rest) /\
  (oslug = None -> JsString.includes oid "org_" = false -> orgSlug u = Some oid).
Proof.
  simpl. split; [|split; [|split; [|split]]].
  - right. simpl. repeat split; discriminate.
  - intros Hu. unfold requireOrgMembership, requireOrgRole, requirePermission, total.
    run_handler. rewrite Hu. simpl. split; [reflexivity|].
    destruct (String.eqb orole role) eqn:E.
    + apply String.eqb_eq in E. subst. split; reflexivity.
    + apply String.eqb_neq in E. split; [discriminate|]. congruence.
  - intros slug ->. reflexivity.
  - intros rest -> ->. f_equal. exact (replace_prefix "org_" rest "").
  - intros -> Habs. f_equal. apply replace_absent, Habs.
Qed.

Lemma mock_org_user_witness :
  orgSlug (createMockOrgUser emptyPayload "org_123" "admin" None) = Some "123".
Proof.
  apply (proj1 (proj2 (proj2 (proj2
           (mock_org_user emptyPayload "org_123" "admin" None "admin"
              (decorateRequest emptyRequest)))))).
  - reflexivity.
  - reflexivity.
Defined.

(** X26. [mockAuth] puts the mock user in the identity slot whatever the
    request carried and whatever identity was there, and calls nothing.
    After it [getUser] returns that user, and a guard built from a boolean
    predicate can fail only with [FORBIDDEN], never with [UNAUTHORIZED]. *)
Theorem mockAuth_installs_identity (emptyRaw : JwtPayload) (overrides : UserOverrides)
    (p : UserContext -> bool) (errorMessage : option string) (st : State) :
  mockAuth emptyRaw overrides st
  = (inr tt, withIdentity st (Some (createMockUserWith emptyRaw overrides))) /\
  outcome ((run! mockAuth emptyRaw overrides in getUser) st)
  = inr (createMockUserWith emptyRaw overrides) /\
  forall e,
    outcome ((run! mockAuth emptyRaw overrides
              in requirePermission (total p) errorMessage) st)
    = inl (ThrowAuth e) ->
    code e = FORBIDDEN /\ statusCode e = Status403.
Proof.
  unfold mockAuth, getUser, requirePermission, total, withIdentity. run_handler.
  split; [reflexivity|]. split; [reflexivity|].
  intros e. destruct (p (createMockUserWith emptyRaw overrides)); [discriminate|].
  intros H. inversion H. split; reflexivity.
Qed.

Lemma mockAuth_installs_identity_witness :
  code (newAuthError FORBIDDEN "Insufficient permissions" None) = FORBIDDEN /\
  statusCode (newAuthError FORBIDDEN "Insufficient permissions" None) = Status403.
Proof.
  apply (proj2 (proj2 (mockAuth_installs_identity emptyPayload noOverrides
                         (fun _ => false) None (decorateRequest emptyRequest)))).
  reflexivity.
Defined.

(** ** Extraction, once more *)

(** X27. The only request from which extraction returns the empty
    credential is one whose Authorization header is exactly ["Bearer "];
    an empty session cookie is never returned. *)
Theorem empty_credential_only_from_header (request : FastifyRequest) :
  extractToken request = Some "" <-> headers_authorization request = Some "Bearer ".
Proof.
  unfold extractToken. split.
  - destruct (headers_authorization request) as [h|].
    + destruct (JsString.startsWith h "Bearer ") eqn:E.
      * intros H. inversion H as [Hs]. f_equal.
        rewrite (bearer_header_splits h E), Hs. reflexivity.
      * destruct (match cookies request with
                  | Some jar => jar !! "__session"
                  | None => None
                  end) as [[|c r]|]; simpl; discriminate.
    + destruct (match cookies request with
                | Some jar => jar !! "__session"
                | None => None
                end) as [[|c r]|]; simpl; discriminate.
  - intros ->. reflexivity.
Qed.
